(** * elftools/elf/wasmfile.py: a shallow embedding and its properties

    The module reads a WebAssembly container: a magic and version prologue,
    then (kind, size, payload) chunks whose integers are ULEB128 varints.
    User (custom) chunks carry a length-prefixed name and are indexed by that
    name; the DWARF sections are looked up in that index, optionally
    decompressed, and handed to the DWARF reader.

    Python values are embedded as follows: a byte string is a [list ascii], a
    [str] is a [string], an [int] is a [Z], a [dict] is a [gmap], a raised
    exception is the [Raise] case of [result], an attribute that was never
    assigned is [None], and a generator is the sequence of values it yields
    together with the exception that ended it, if any. *)

From stdpp Require Import gmap strings list.
From Stdlib Require Import ZArith Ascii.

Open Scope Z_scope.

(** ** Exceptions and results *)

(** The three [assert] statements of [_decompress_dwarf_section]. *)
Inductive assertion :=
  | Unsupported_compression_format
  | Invalid_compression_type
  | Wrong_uncompressed_size.

Inductive exn :=
  | TypeError                         (* [ord] of an empty read *)
  | KeyError                          (* a dict has no such key *)
  | AttributeError (attr : string)    (* the object has no such attribute *)
  | AssertionError (a : assertion)
  | ELFError                          (* [elf_assert] failed *)
  | struct_error                      (* [struct.unpack] on a short buffer *)
  | ValueError                        (* unpacking a tuple of the wrong length *)
  | zlib_error                        (* raised by the zlib decompressor *)
  | RecursionError                    (* maximum recursion depth exceeded *)
  | LoopBound.                        (* not a Python exception: the bound given
                                         to a modelled loop was too small; the
                                         bounds used below are never reached *)

Inductive result (A : Type) :=
  | Ok (a : A)
  | Raise (e : exn).
Arguments Ok {A} a.
Arguments Raise {A} e.

#[global] Instance result_ret : MRet result := @Ok.
#[global] Instance result_bind : MBind result :=
  fun A B f r => match r with Ok a => f a | Raise e => Raise e end.

Definition raises {A} (r : result A) : Prop := ∃ e, r = Raise e.

(** ** Byte strings and streams *)

Abbreviation bytes := (list ascii).

(** [ord(c)] of a one-byte string. *)
Definition ord (c : ascii) : Z := Z.of_N (N_of_ascii c).

(** [chr]: the byte of value [n], for [0 <= n < 256]. *)
Definition chr (n : Z) : ascii := ascii_of_N (Z.to_N n).

(** A binary file object or a [BytesIO]: its contents and its position. *)
Record Stream := { buf : bytes; pos : nat }.

(** [io.BytesIO(b)] *)
Definition BytesIO (b : bytes) : Stream := {| buf := b; pos := 0 |}.

Definition remaining (s : Stream) : bytes := drop (pos s) (buf s).

(** [stream.seek(0)] *)
Definition seek0 (s : Stream) : Stream := {| buf := buf s; pos := 0 |}.

(** [stream.seek(0, io.SEEK_END)] *)
Definition seek_end (s : Stream) : Stream :=
  {| buf := buf s; pos := length (buf s) |}.

(** [stream.tell()] *)
Definition tell (s : Stream) : Z := Z.of_nat (pos s).

(** [os.fstat(stream.fileno()).st_size] *)
Definition st_size (s : Stream) : Z := Z.of_nat (length (buf s)).

(** [stream.read(n)]: at most [n] bytes, fewer when the stream ends first;
    a negative [n] reads to the end.  It never raises. *)
Definition read (n : Z) (s : Stream) : bytes * Stream :=
  let chunk := if decide (n < 0) then remaining s
               else take (Z.to_nat n) (remaining s) in
  (chunk, {| buf := buf s; pos := pos s + length chunk |}).

(** [stream.write(b)] on a [BytesIO] positioned at its end. *)
Definition write (b : bytes) (s : Stream) : Stream :=
  {| buf := take (pos s) (buf s) ++ b ++ drop (pos s + length b) (buf s);
     pos := pos s + length b |}.

(** ** The varint codec *)

(** The loop of [read_ULEB128] over the bytes that remain in the stream: each
    turn takes one byte with [stream.read(1)]; at the end of the stream the
    read is empty and [ord] raises. *)
Fixpoint read_ULEB128_loop (rest : bytes) (ret shifts : Z) : result (Z * bytes) :=
  match rest with
  | [] => Raise TypeError
  | c :: rest' =>
      let curr := ord c in
      let ret := ret + Z.shiftl (Z.land curr 127) shifts in
      if decide (Z.land curr 128 = 0) then Ok (ret, rest')
      else read_ULEB128_loop rest' ret (shifts + 7)
  end.

Definition read_ULEB128 (s : Stream) : result (Z * Stream) :=
  '(ret, rest') ← read_ULEB128_loop (remaining s) 0 0;
  mret (ret, {| buf := buf s; pos := length (buf s) - length rest' |}).

(** *** [str] of a byte string

    Python 2's [str] is the byte string type, so [str(b)] is [b].  Python 3's
    [str(b)] is [repr(b)]: the letter b, a quote, the bytes with escapes, the
    quote.  The module imports the package's [py3compat] shim and is meant to
    run on both. *)
Inductive PyVersion := Py2 | Py3.

Definition squote : ascii := "'"%char.
Definition dquote : ascii := ascii_of_nat 34.
Definition backslash : ascii := "\"%char.

Definition hexdigit (n : Z) : ascii :=
  if decide (n < 10) then chr (48 + n) else chr (87 + n).

(** The quote [repr] picks: double only when the bytes hold a single quote
    and no double quote. *)
Definition repr_quote (b : bytes) : ascii :=
  if decide (squote ∈ b ∧ dquote ∉ b) then dquote else squote.

Definition repr_byte (quote c : ascii) : bytes :=
  if decide (c = quote ∨ c = backslash) then [backslash; c]
  else if decide (ord c = 9) then [backslash; "t"%char]
  else if decide (ord c = 10) then [backslash; "n"%char]
  else if decide (ord c = 13) then [backslash; "r"%char]
  else if decide (ord c < 32 ∨ 127 <= ord c)
       then [backslash; "x"%char; hexdigit (ord c / 16); hexdigit (ord c mod 16)]
  else [c].

Definition bytes_repr (b : bytes) : bytes :=
  let quote := repr_quote b in
  ["b"%char; quote] ++ concat (map (repr_byte quote) b) ++ [quote].

Definition py_str (py : PyVersion) (b : bytes) : string :=
  match py with
  | Py2 => String.string_of_list_ascii b
  | Py3 => String.string_of_list_ascii (bytes_repr b)
  end.

(** Wasm strings are ULEB128 size prefixed. *)
Definition read_WasmString (py : PyVersion) (s : Stream) : result (string * Stream) :=
  '(size, s) ← read_ULEB128 s;
  let '(b, s) := read size s in
  mret (py_str py b, s).

(** ** WasmSection *)

Module WasmSection.

Definition User : Z := 0.
Definition Type_ : Z := 1.
Definition Import_ : Z := 2.
Definition Function_ : Z := 3.
Definition Table : Z := 4.
Definition Memory : Z := 5.
Definition Global_ : Z := 6.
Definition Export_ : Z := 7.
Definition Start : Z := 8.
Definition Element : Z := 9.
Definition Code : Z := 10.
Definition Data : Z := 11.
Definition DataCount : Z := 12.
Definition Event : Z := 13.

Record t := { name : string; _data : bytes; header : gmap string Z }.

Definition __init__ (name : string) (data : bytes) : t :=
  {| name := name;
     _data := data;
     header := <["sh_size" := Z.of_nat (length data)]>
               (<["sh_offset" := 0]> (<["sh_addr" := 0]> ∅)) |}.

Definition data (self : t) : bytes := _data self.

Definition __getitem__ (self : t) (key : string) : result Z :=
  match header self !! key with
  | Some v => Ok v
  | None => Raise KeyError
  end.

End WasmSection.

(** ** Collaborators that live outside this module

    The record layouts, the section and segment classes, the DWARF reader, the
    relocation handler and zlib are used by the module but defined elsewhere.
    They are embedded as far as this module touches them. *)

(** Modelled from the spec: the parsed headers of the segmented family, with
    the fields this module reads.  A type tag is the name of the enumerated
    value, as in ['PT_LOAD']. *)
Record Elf_Shdr_t := { sh_name : Z; sh_type : string; sh_link : Z }.
Record Elf_Phdr_t :=
  { p_type : string; p_offset : Z; p_vaddr : Z; p_filesz : Z; p_memsz : Z }.

(** Modelled from the spec: a struct of the external structs component parses
    the bytes of a stream, from a given offset, into a record or fails. *)
Definition parser (A : Type) : Type := bytes → Z → result A.

Record ELFStructs := {
  Elf_Ehdr : parser (gmap string Z);
  Elf_Shdr : parser Elf_Shdr_t;
  Elf_Phdr : parser Elf_Phdr_t
}.

(** [struct_parse(struct, stream, stream_pos)] seeks and parses. *)
Definition struct_parse {A} (struct : parser A) (stream : Stream) (stream_pos : Z)
  : result A :=
  struct (buf stream) stream_pos.

(** Modelled from the spec: the section views the factory chooses between.
    Each records the class and the arguments of its constructor. *)
Inductive ELFSection :=
  | StringTableSection (header : Elf_Shdr_t) (name : string)
  | NullSection (header : Elf_Shdr_t) (name : string)
  | SymbolTableSection (header : Elf_Shdr_t) (name : string) (stringtable : ELFSection)
  | SUNWSyminfoTableSection (header : Elf_Shdr_t) (name : string) (symboltable : ELFSection)
  | GNUVerNeedSection (header : Elf_Shdr_t) (name : string) (stringtable : ELFSection)
  | GNUVerDefSection (header : Elf_Shdr_t) (name : string) (stringtable : ELFSection)
  | GNUVerSymSection (header : Elf_Shdr_t) (name : string) (symboltable : ELFSection)
  | RelocationSection (header : Elf_Shdr_t) (name : string)
  | DynamicSection (header : Elf_Shdr_t) (name : string)
  | NoteSection (header : Elf_Shdr_t) (name : string)
  | StabSection (header : Elf_Shdr_t) (name : string)
  | ARMAttributesSection (header : Elf_Shdr_t) (name : string)
  | Section (header : Elf_Shdr_t) (name : string).

(** Modelled from the spec: the segment views; [seg[key]] reads the header. *)
Inductive ELFSegment :=
  | InterpSegment (header : Elf_Phdr_t)
  | DynamicSegment (header : Elf_Phdr_t)
  | NoteSegment (header : Elf_Phdr_t)
  | Segment (header : Elf_Phdr_t).

Definition segment_header (seg : ELFSegment) : Elf_Phdr_t :=
  match seg with
  | InterpSegment h | DynamicSegment h | NoteSegment h | Segment h => h
  end.

(** Modelled from the spec: the descriptor of one debug section, a named
    tuple of an owned stream, a name, and the declared offset, size and
    address. *)
Module DebugSectionDescriptor.
Record t := {
  stream : Stream;
  name : string;
  global_offset : Z;
  size : Z;
  address : Z
}.
End DebugSectionDescriptor.

(** Modelled from the spec: the fixed metadata and the bundle handed to the
    DWARF reader, one slot per debug section role. *)
Record DwarfConfig := {
  little_endian : bool;
  default_address_size : Z;
  machine_arch : string
}.

Record DWARFInfo := {
  config : DwarfConfig;
  debug_info_sec : option DebugSectionDescriptor.t;
  debug_aranges_sec : option DebugSectionDescriptor.t;
  debug_abbrev_sec : option DebugSectionDescriptor.t;
  debug_frame_sec : option DebugSectionDescriptor.t;
  eh_frame_sec : option DebugSectionDescriptor.t;
  debug_str_sec : option DebugSectionDescriptor.t;
  debug_loc_sec : option DebugSectionDescriptor.t;
  debug_ranges_sec : option DebugSectionDescriptor.t;
  debug_line_sec : option DebugSectionDescriptor.t;
  debug_pubtypes_sec : option DebugSectionDescriptor.t;
  debug_pubnames_sec : option DebugSectionDescriptor.t
}.

(** The page size the module reads from the operating system at import. *)
Class Platform := { PAGESIZE : Z; PAGESIZE_pos : 0 < PAGESIZE }.

(** zlib's decompression object, as the module uses it:
    [zlib.decompressobj()], [d.decompress(chunk)] and [d.flush()]. *)
Class Zlib := {
  zstate : Type;
  decompressobj : zstate;
  decompress : zstate → bytes → result (bytes * zstate);
  flush : zstate → result bytes
}.

(** A generator, run to its end: what it yields, and the exception that ends
    it when it does not simply return. *)
Record generator (A : Type) := { yields : list A; raised : option exn }.
Arguments yields {A} g.
Arguments raised {A} g.

(** Calling a generator function (a [def] with [yield]) builds the generator
    object and runs none of the body: the call itself returns. *)
Definition call_generator {A} (g : generator A) : result (generator A) := Ok g.

(** [for i in l: yield f(i)] *)
Fixpoint yield_each {A} (f : Z → result A) (l : list Z) : generator A :=
  match l with
  | [] => {| yields := []; raised := None |}
  | i :: l' =>
      match f i with
      | Raise e => {| yields := []; raised := Some e |}
      | Ok a => let g := yield_each f l' in
                {| yields := a :: yields g; raised := raised g |}
      end
  end.

(** [range(n)] *)
Definition range (n : Z) : list Z := map Z.of_nat (seq 0 (Z.to_nat n)).

(** ** WasmFile *)

(** The attributes of a [WasmFile] object.  [__init__] assigns [stream],
    [version] and the two maps; [header], [structs] and
    [_file_stringtable_section] are read by methods of the class but assigned
    nowhere in it, so they are [None] unless someone else assigns them. *)
Record WasmFile := {
  stream : Stream;
  version : bytes;
  _section_name_map : gmap Z (list bytes);
  _custom_section_name_map : gmap string WasmSection.t;
  header : option (gmap string Z);
  structs : option ELFStructs;
  _file_stringtable_section : option (Z → result string)
}.

(** The relocation handler: [RelocationHandler(file)],
    [find_relocations_for_section] and [apply_section_relocations]. *)
Class RelocationHandler := {
  reloc_section : Type;
  find_relocations_for_section : WasmFile → WasmSection.t → result (option reloc_section);
  apply_section_relocations : Stream → reloc_section → result Stream
}.

Definition elf_assert (cond : bool) : result unit :=
  if cond then Ok () else Raise ELFError.

Definition magic : bytes := [ascii_of_nat 0; "a"; "s"; "m"]%char.

(** Verify the Wasm file and identify its class and endianness. *)
Definition _identify_file (stream : Stream) : result (bytes * Stream) :=
  let stream := seek0 stream in
  let '(magic_read, stream) := read 4 stream in
  _ ← elf_assert (bool_decide (magic_read = magic));
  let '(version, stream) := read 4 stream in
  mret (version, stream).

(** [d.setdefault(code, []).append(payload)] *)
Definition setdefault_append (code : Z) (payload : bytes) (d : gmap Z (list bytes))
  : gmap Z (list bytes) :=
  <[code := default [] (d !! code) ++ [payload]]> d.

(** The [while] loop of [_read_sections].  A turn that does not raise reads
    at least one byte, so the bytes that remain bound the number of turns. *)
Fixpoint _read_sections_loop (bound : nat) (total : Z) (d : gmap Z (list bytes))
    (stream : Stream) : result (gmap Z (list bytes) * Stream) :=
  if decide (tell stream < total) then
    match bound with
    | O => Raise LoopBound
    | S bound =>
        '(code, stream) ← read_ULEB128 stream;
        '(size, stream) ← read_ULEB128 stream;
        let '(payload, stream) := read size stream in
        _read_sections_loop bound total (setdefault_append code payload d) stream
    end
  else Ok (d, stream).

(** The body of the [for] loop of [_read_sections]: one user section. *)
Definition custom_section (py : PyVersion) (user_section : bytes) : result WasmSection.t :=
  let total := Z.of_nat (length user_section) in
  let stream := BytesIO user_section in
  '(name, stream) ← read_WasmString py stream;
  let '(data, _) := read (total - tell stream) stream in
  mret (WasmSection.__init__ name data).

Fixpoint _read_custom_sections (py : PyVersion) (user_sections : list bytes)
    (d : gmap string WasmSection.t) : result (gmap string WasmSection.t) :=
  match user_sections with
  | [] => Ok d
  | user_section :: rest =>
      section ← custom_section py user_section;
      _read_custom_sections py rest (<[WasmSection.name section := section]> d)
  end.

Definition _read_sections (py : PyVersion) (stream : Stream)
  : result (gmap Z (list bytes) * gmap string WasmSection.t * Stream) :=
  let total := st_size stream in
  '(section_name_map, stream) ←
    _read_sections_loop (length (remaining stream)) total ∅ stream;
  user_sections ← match section_name_map !! WasmSection.User with
                  | Some l => Ok l
                  | None => Raise KeyError
                  end;
  custom_section_name_map ← _read_custom_sections py user_sections ∅;
  mret (section_name_map, custom_section_name_map, stream).

Definition __init__ (py : PyVersion) (stream : Stream) : result WasmFile :=
  '(version, stream) ← _identify_file stream;
  '(section_name_map, custom_section_name_map, stream) ← _read_sections py stream;
  mret {| stream := stream;
          version := version;
          _section_name_map := section_name_map;
          _custom_section_name_map := custom_section_name_map;
          header := None;
          structs := None;
          _file_stringtable_section := None |}.

(** Implement dict-like access to header entries. *)
Definition __getitem__ (self : WasmFile) (name : string) : result Z :=
  match header self with
  | None => Raise (AttributeError "header")
  | Some h => match h !! name with
              | Some v => Ok v
              | None => Raise KeyError
              end
  end.

Definition num_sections (self : WasmFile) : result Z := __getitem__ self "e_shnum".

Definition num_segments (self : WasmFile) : result Z := __getitem__ self "e_phnum".

Definition _section_offset (self : WasmFile) (n : Z) : result Z :=
  e_shoff ← __getitem__ self "e_shoff";
  e_shentsize ← __getitem__ self "e_shentsize";
  mret (e_shoff + n * e_shentsize).

Definition _segment_offset (self : WasmFile) (n : Z) : result Z :=
  e_phoff ← __getitem__ self "e_phoff";
  e_phentsize ← __getitem__ self "e_phentsize";
  mret (e_phoff + n * e_phentsize).

Definition get_structs (self : WasmFile) : result ELFStructs :=
  match structs self with
  | None => Raise (AttributeError "structs")
  | Some st => Ok st
  end.

Definition _get_section_header (self : WasmFile) (n : Z) : result Elf_Shdr_t :=
  st ← get_structs self;
  stream_pos ← _section_offset self n;
  struct_parse (Elf_Shdr st) (stream self) stream_pos.

Definition _get_segment_header (self : WasmFile) (n : Z) : result Elf_Phdr_t :=
  st ← get_structs self;
  stream_pos ← _segment_offset self n;
  struct_parse (Elf_Phdr st) (stream self) stream_pos.

Definition _get_section_name (self : WasmFile) (section_header : Elf_Shdr_t)
  : result string :=
  let name_offset := sh_name section_header in
  match _file_stringtable_section self with
  | None => Raise (AttributeError "_file_stringtable_section")
  | Some get_string => get_string name_offset
  end.

(** The five [_make_*_section] helpers fetch the linked section and build
    the view; [get_section] is the method they call back. *)
Definition _make_linked_section (get_section : Z → result ELFSection)
    (view : Elf_Shdr_t → string → ELFSection → ELFSection)
    (section_header : Elf_Shdr_t) (name : string) : result ELFSection :=
  let linked_strtab_index := sh_link section_header in
  strtab_section ← get_section linked_strtab_index;
  mret (view section_header name strtab_section).

Definition _make_section (get_section : Z → result ELFSection) (self : WasmFile)
    (section_header : Elf_Shdr_t) : result ELFSection :=
  name ← _get_section_name self section_header;
  let sectype := sh_type section_header in
  if decide (sectype = "SHT_STRTAB") then
    mret (StringTableSection section_header name)
  else if decide (sectype = "SHT_NULL") then
    mret (NullSection section_header name)
  else if decide (sectype ∈ ["SHT_SYMTAB"; "SHT_DYNSYM"; "SHT_SUNW_LDYNSYM"]) then
    _make_linked_section get_section SymbolTableSection section_header name
  else if decide (sectype = "SHT_SUNW_syminfo") then
    _make_linked_section get_section SUNWSyminfoTableSection section_header name
  else if decide (sectype = "SHT_GNU_verneed") then
    _make_linked_section get_section GNUVerNeedSection section_header name
  else if decide (sectype = "SHT_GNU_verdef") then
    _make_linked_section get_section GNUVerDefSection section_header name
  else if decide (sectype = "SHT_GNU_versym") then
    _make_linked_section get_section GNUVerSymSection section_header name
  else if decide (sectype ∈ ["SHT_REL"; "SHT_RELA"]) then
    mret (RelocationSection section_header name)
  else if decide (sectype = "SHT_DYNAMIC") then
    mret (DynamicSection section_header name)
  else if decide (sectype = "SHT_NOTE") then
    mret (NoteSection section_header name)
  else if decide (sectype = "SHT_PROGBITS" ∧ name = ".stab") then
    mret (StabSection section_header name)
  else if decide (sectype = "SHT_ARM_ATTRIBUTES") then
    mret (ARMAttributesSection section_header name)
  else
    mret (Section section_header name).

(** Get the section at index [n].  [depth] is the number of nested calls the
    interpreter still allows. *)
Fixpoint get_section (depth : nat) (self : WasmFile) (n : Z) : result ELFSection :=
  section_header ← _get_section_header self n;
  _make_section
    (match depth with
     | O => fun _ => Raise RecursionError
     | S depth => get_section depth self
     end)
    self section_header.

Definition _make_segment (segment_header : Elf_Phdr_t) : ELFSegment :=
  let segtype := p_type segment_header in
  if decide (segtype = "PT_INTERP") then InterpSegment segment_header
  else if decide (segtype = "PT_DYNAMIC") then DynamicSegment segment_header
  else if decide (segtype = "PT_NOTE") then NoteSegment segment_header
  else Segment segment_header.

Definition get_segment (self : WasmFile) (n : Z) : result ELFSegment :=
  segment_header ← _get_segment_header self n;
  mret (_make_segment segment_header).

(** Yield all the sections in the file. *)
Definition iter_sections (depth : nat) (self : WasmFile) : generator ELFSection :=
  match num_sections self with
  | Raise e => {| yields := []; raised := Some e |}
  | Ok n => yield_each (get_section depth self) (range n)
  end.

(** Yield all the segments in the file. *)
Definition iter_segments (self : WasmFile) : generator ELFSegment :=
  match num_segments self with
  | Raise e => {| yields := []; raised := Some e |}
  | Ok n => yield_each (get_segment self) (range n)
  end.

(** The body of the loop of [address_offsets] for one segment: the offsets
    it yields. *)
Definition address_offsets_body (start end_ : Z) (seg : ELFSegment) : list Z :=
  let h := segment_header seg in
  if decide (p_type h ≠ "PT_LOAD") then []
  else if decide (start >= p_vaddr h ∧ end_ <= p_vaddr h + p_filesz h)
       then [start - p_vaddr h + p_offset h]
  else [].

(** Yield a file offset for each segment containing the memory region
    [start...start+size).  The generator runs [iter_segments] and ends the
    way it ends. *)
Definition address_offsets (self : WasmFile) (start size : Z) : generator Z :=
  let end_ := start + size in
  let segs := iter_segments self in
  {| yields := concat (map (address_offsets_body start end_) (yields segs));
     raised := raised segs |}.

Definition get_section_by_name (self : WasmFile) (name : string)
  : option WasmSection.t :=
  _custom_section_name_map self !! name.

(** Truth value of a section object or [None]: the class defines neither
    [__bool__] nor [__len__], so every section object is true. *)
Definition truthy {A} (x : option A) : bool :=
  match x with Some _ => true | None => false end.

(** [x or y] *)
Definition py_or {A} (x y : option A) : option A := if truthy x then x else y.

Definition has_dwarf_info (self : WasmFile) : option WasmSection.t :=
  py_or (get_section_by_name self ".debug_info")
    (py_or (get_section_by_name self ".zdebug_info")
           (get_section_by_name self ".eh_frame")).

Definition get_machine_arch (self : WasmFile) : string := "wasm32".

(** ** Debug sections *)

Definition bool_ {A} (x : option A) : bool := truthy x.

(** Read the contents of a DWARF section and return a
    [DebugSectionDescriptor].  Apply relocations if asked to. *)
Definition _read_dwarf_section `{RelocationHandler} (self : WasmFile)
    (section : WasmSection.t) (relocate_dwarf_sections : bool)
  : result DebugSectionDescriptor.t :=
  let section_stream := BytesIO [] in
  let section_stream := write (WasmSection.data section) section_stream in
  section_stream ←
    (if relocate_dwarf_sections then
       reloc_section ← find_relocations_for_section self section;
       match reloc_section with
       | Some reloc_section => apply_section_relocations section_stream reloc_section
       | None => Ok section_stream
       end
     else Ok section_stream);
  global_offset ← WasmSection.__getitem__ section "sh_offset";
  size ← WasmSection.__getitem__ section "sh_size";
  address ← WasmSection.__getitem__ section "sh_addr";
  mret {| DebugSectionDescriptor.stream := section_stream;
          DebugSectionDescriptor.name := WasmSection.name section;
          DebugSectionDescriptor.global_offset := global_offset;
          DebugSectionDescriptor.size := size;
          DebugSectionDescriptor.address := address |}.

(** The integer a byte string spells in big-endian order. *)
Definition int_from_bytes_big (b : bytes) : Z :=
  fold_left (fun acc c => acc * 256 + ord c) b 0.

(** [struct.unpack('>Q', b)[0]] *)
Definition struct_unpack_Q_big (b : bytes) : result Z :=
  if decide (length b = 8%nat) then Ok (int_from_bytes_big b)
  else Raise struct_error.

Definition ZLIB : bytes := ["Z"; "L"; "I"; "B"]%char.

(** The [while True] loop of [_decompress_dwarf_section].  A turn that does
    not break reads at least one byte. *)
Fixpoint _decompress_loop `{Platform, Zlib} (bound : nat) (decompressor : zstate)
    (stream uncompressed_stream : Stream) : result (zstate * Stream * Stream) :=
  let '(chunk, stream) := read PAGESIZE stream in
  if decide (chunk = []) then Ok (decompressor, stream, uncompressed_stream)
  else
    match bound with
    | O => Raise LoopBound
    | S bound =>
        '(out, decompressor) ← decompress decompressor chunk;
        _decompress_loop bound decompressor stream (write out uncompressed_stream)
    end.

(** Returns the uncompressed contents of the provided DWARF section. *)
Definition _decompress_dwarf_section `{Platform, Zlib}
    (section : DebugSectionDescriptor.t) : result DebugSectionDescriptor.t :=
  if decide (DebugSectionDescriptor.size section > 12) then
    let stream := seek0 (DebugSectionDescriptor.stream section) in
    let '(compression_type, stream) := read 4 stream in
    if decide (compression_type = ZLIB) then
      let '(size_field, stream) := read 8 stream in
      uncompressed_size ← struct_unpack_Q_big size_field;
      let decompressor := decompressobj in
      let uncompressed_stream := BytesIO [] in
      '(decompressor, _, uncompressed_stream) ←
        _decompress_loop (length (remaining stream)) decompressor stream
                         uncompressed_stream;
      out ← flush decompressor;
      let uncompressed_stream := write out uncompressed_stream in
      let uncompressed_stream := seek_end uncompressed_stream in
      let size := tell uncompressed_stream in
      if decide (uncompressed_size = size) then
        mret {| DebugSectionDescriptor.stream := uncompressed_stream;
                DebugSectionDescriptor.name := DebugSectionDescriptor.name section;
                DebugSectionDescriptor.global_offset :=
                  DebugSectionDescriptor.global_offset section;
                DebugSectionDescriptor.size := size;
                DebugSectionDescriptor.address :=
                  DebugSectionDescriptor.address section |}
      else Raise (AssertionError Wrong_uncompressed_size)
    else Raise (AssertionError Invalid_compression_type)
  else Raise (AssertionError Unsupported_compression_format).

(** The canonical names of the debug sections, in the order of the source. *)
Definition section_names : list string :=
  [".debug_info"; ".debug_aranges"; ".debug_abbrev"; ".debug_str";
   ".debug_line"; ".debug_frame"; ".debug_loc"; ".debug_ranges";
   ".debug_pubtypes"; ".debug_pubnames"].

(** [x[1:]] *)
Definition str_tail (x : string) : string :=
  match x with
  | EmptyString => EmptyString
  | String _ rest => rest
  end.

(** ['.z' + x[1:]] *)
Definition z_name (x : string) : string := ".z" +:+ str_tail x.

(** [secname.startswith('.z')] *)
Definition startswith_z (secname : string) : bool := String.prefix ".z" secname.

(** [d[key]] *)
Definition dict_get {V} (d : gmap string V) (key : string) : result V :=
  match d !! key with
  | Some v => Ok v
  | None => Raise KeyError
  end.

(** The body of the [for secname in section_names] loop of
    [get_dwarf_info]: the value stored under [secname]. *)
Definition _debug_section `{Platform, Zlib, RelocationHandler} (self : WasmFile)
    (relocate_dwarf_sections compressed : bool) (secname : string)
  : result (option DebugSectionDescriptor.t) :=
  match get_section_by_name self secname with
  | None => Ok None
  | Some section =>
      dwarf_section ← _read_dwarf_section self section relocate_dwarf_sections;
      dwarf_section ←
        (if compressed && startswith_z secname
         then _decompress_dwarf_section dwarf_section
         else Ok dwarf_section);
      mret (Some dwarf_section)
  end.

Fixpoint _debug_sections_loop `{Platform, Zlib, RelocationHandler} (self : WasmFile)
    (relocate_dwarf_sections compressed : bool) (names : list string)
    (debug_sections : gmap string (option DebugSectionDescriptor.t))
  : result (gmap string (option DebugSectionDescriptor.t)) :=
  match names with
  | [] => Ok debug_sections
  | secname :: names =>
      value ← _debug_section self relocate_dwarf_sections compressed secname;
      _debug_sections_loop self relocate_dwarf_sections compressed names
        (<[secname := value]> debug_sections)
  end.

(** Return a [DWARFInfo] object representing the debugging information in
    this file. *)
Definition get_dwarf_info `{Platform, Zlib, RelocationHandler} (self : WasmFile)
    (relocate_dwarf_sections : bool) : result DWARFInfo :=
  let compressed := bool_ (get_section_by_name self ".zdebug_info") in
  let section_names :=
    if compressed then map z_name section_names else section_names in
  let section_names := section_names ++ [".eh_frame"] in
  match section_names with
  | [debug_info_sec_name; debug_aranges_sec_name; debug_abbrev_sec_name;
     debug_str_sec_name; debug_line_sec_name; debug_frame_sec_name;
     debug_loc_sec_name; debug_ranges_sec_name; debug_pubtypes_name;
     debug_pubnames_name; eh_frame_sec_name] =>
      debug_sections ←
        _debug_sections_loop self relocate_dwarf_sections compressed section_names ∅;
      info ← dict_get debug_sections debug_info_sec_name;
      aranges ← dict_get debug_sections debug_aranges_sec_name;
      abbrev ← dict_get debug_sections debug_abbrev_sec_name;
      frame ← dict_get debug_sections debug_frame_sec_name;
      eh_frame ← dict_get debug_sections eh_frame_sec_name;
      str ← dict_get debug_sections debug_str_sec_name;
      loc ← dict_get debug_sections debug_loc_sec_name;
      ranges ← dict_get debug_sections debug_ranges_sec_name;
      line ← dict_get debug_sections debug_line_sec_name;
      pubtypes ← dict_get debug_sections debug_pubtypes_name;
      pubnames ← dict_get debug_sections debug_pubnames_name;
      mret {| config := {| little_endian := true;
                           default_address_size := 32 / 8;
                           machine_arch := "wasm32" |};
              debug_info_sec := info;
              debug_aranges_sec := aranges;
              debug_abbrev_sec := abbrev;
              debug_frame_sec := frame;
              eh_frame_sec := eh_frame;
              debug_str_sec := str;
              debug_loc_sec := loc;
              debug_ranges_sec := ranges;
              debug_line_sec := line;
              debug_pubtypes_sec := pubtypes;
              debug_pubnames_sec := pubnames |}
  | _ => Raise ValueError
  end.

(** ** Instances of the collaborators, for running the module on examples *)

(** A page of 4096 bytes. *)
Definition page_4096 : Platform := {| PAGESIZE := 4096; PAGESIZE_pos := eq_refl |}.

(** A relocation handler that finds no relocation section. *)
Definition no_relocations : RelocationHandler :=
  {| reloc_section := unit;
     find_relocations_for_section := fun _ _ => Ok None;
     apply_section_relocations := fun s _ => Ok s |}.

(** A zlib decompression object for the zlib container (RFC 1950) around
    deflate data made of stored blocks (RFC 1951, block type 00), which is
    what zlib writes at compression level 0.  It works a byte at a time:
    header check, block header, the length and its complement, the stored
    bytes, the Adler-32 trailer; bytes after the trailer are left unused.
    Blocks of the other types are outside this instance and rejected. *)
Inductive stored_phase :=
  | ZHeader0
  | ZHeader1 (cmf : Z)
  | ZBlock
  | ZLen (final : bool) (got : list Z)
  | ZData (final : bool) (n : Z)
  | ZTrailer (got : list Z)
  | ZDone.

Record stored_state := { phase : stored_phase; adler_a : Z; adler_b : Z }.

Definition stored_init : stored_state :=
  {| phase := ZHeader0; adler_a := 1; adler_b := 0 |}.

Definition after_block (final : bool) : stored_phase :=
  if final then ZTrailer [] else ZBlock.

Definition stored_step (st : stored_state) (c : ascii)
  : result (bytes * stored_state) :=
  let to p := Ok ([], {| phase := p; adler_a := adler_a st; adler_b := adler_b st |}) in
  match phase st with
  | ZHeader0 => to (ZHeader1 (ord c))
  | ZHeader1 cmf =>
      let flg := ord c in
      if decide ((cmf * 256 + flg) mod 31 ≠ 0) then Raise zlib_error
      else if decide (Z.land cmf 15 ≠ 8) then Raise zlib_error
      else if decide (Z.shiftr cmf 4 > 7) then Raise zlib_error
      else if decide (Z.land flg 32 ≠ 0) then Raise zlib_error
      else to ZBlock
  | ZBlock =>
      let final := bool_decide (Z.land (ord c) 1 = 1) in
      if decide (Z.land (Z.shiftr (ord c) 1) 3 = 0) then to (ZLen final [])
      else Raise zlib_error
  | ZLen final got =>
      match got ++ [ord c] with
      | [l0; l1; n0; n1] =>
          let len := l0 + 256 * l1 in
          let nlen := n0 + 256 * n1 in
          if decide (len + nlen ≠ 65535) then Raise zlib_error
          else if decide (len = 0) then to (after_block final)
          else to (ZData final len)
      | got => to (ZLen final got)
      end
  | ZData final n =>
      let a := (adler_a st + ord c) mod 65521 in
      let b := (adler_b st + a) mod 65521 in
      Ok ([c], {| phase := if decide (n - 1 = 0) then after_block final
                           else ZData final (n - 1);
                  adler_a := a; adler_b := b |})
  | ZTrailer got =>
      match got ++ [ord c] with
      | [t0; t1; t2; t3] =>
          if decide (((t0 * 256 + t1) * 256 + t2) * 256 + t3
                     = adler_b st * 65536 + adler_a st)
          then to ZDone else Raise zlib_error
      | got => to (ZTrailer got)
      end
  | ZDone => to ZDone
  end.

Fixpoint stored_decompress (st : stored_state) (chunk : bytes)
  : result (bytes * stored_state) :=
  match chunk with
  | [] => Ok ([], st)
  | c :: chunk =>
      '(out, st) ← stored_step st c;
      '(out', st) ← stored_decompress st chunk;
      mret (out ++ out', st)
  end.

Definition stored_zlib : Zlib :=
  {| zstate := stored_state;
     decompressobj := stored_init;
     decompress := stored_decompress;
     flush := fun _ => Ok [] |}.

(** ** The formats, written out

    The encoders below are not part of the module, which only reads.  They
    build the inputs the properties speak about. *)

(** The ULEB128 digits of [n], least significant first; [bound] is the number
    of digits at most. *)
Fixpoint encode_ULEB128_digits (bound : nat) (n : Z) : bytes :=
  match bound with
  | O => []
  | S bound =>
      if decide (n < 128) then [chr n]
      else chr (n mod 128 + 128) :: encode_ULEB128_digits bound (n / 128)
  end.

Definition encode_ULEB128 (n : Z) : bytes :=
  encode_ULEB128_digits (S (Z.to_nat (Z.log2 n))) n.

(** [n.to_bytes(k, 'big')] *)
Fixpoint int_to_bytes_big (k : nat) (n : Z) : bytes :=
  match k with
  | O => []
  | S k => int_to_bytes_big k (n / 256) ++ [chr (n mod 256)]
  end.

(** One chunk of the module family: kind, size, payload. *)
Definition chunk_bytes (c : Z * bytes) : bytes :=
  encode_ULEB128 (fst c) ++ encode_ULEB128 (Z.of_nat (length (snd c))) ++ snd c.

(** The payload of a user section: the length-prefixed name, then the data. *)
Definition user_payload (name data : bytes) : bytes :=
  encode_ULEB128 (Z.of_nat (length name)) ++ name ++ data.

Definition version_1 : bytes := [ascii_of_nat 1; ascii_of_nat 0; ascii_of_nat 0; ascii_of_nat 0].

(** A whole file: prologue and chunks; the stream a caller opens on it. *)
Definition module_bytes (chunks : list (Z * bytes)) : bytes :=
  magic ++ version_1 ++ concat (map chunk_bytes chunks).

Definition open_file (contents : bytes) : Stream := BytesIO contents.

(** The dictionary the walk builds from a list of chunks. *)
Definition chunks_map (chunks : list (Z * bytes)) (d : gmap Z (list bytes))
  : gmap Z (list bytes) :=
  fold_left (fun d c => setdefault_append (fst c) (snd c) d) chunks d.

(** ** The debug bundle, as the specification words it *)

(** The bundle whose slots hold the given values, listed in the order in
    which the names are visited. *)
Definition bundle
    (info aranges abbrev str line frame loc ranges pubtypes pubnames eh_frame
       : option DebugSectionDescriptor.t) : DWARFInfo :=
  {| config := {| little_endian := true;
                  default_address_size := 4;
                  machine_arch := "wasm32" |};
     debug_info_sec := info;
     debug_aranges_sec := aranges;
     debug_abbrev_sec := abbrev;
     debug_frame_sec := frame;
     eh_frame_sec := eh_frame;
     debug_str_sec := str;
     debug_loc_sec := loc;
     debug_ranges_sec := ranges;
     debug_line_sec := line;
     debug_pubtypes_sec := pubtypes;
     debug_pubnames_sec := pubnames |}.

(** A slot filled from the section of the given name, if there is one: its
    bytes are read into a descriptor and left as they are. *)
Definition plain_slot `{RelocationHandler} (self : WasmFile) (relocate : bool)
    (name : string) : result (option DebugSectionDescriptor.t) :=
  match get_section_by_name self name with
  | None => Ok None
  | Some section =>
      descriptor ← _read_dwarf_section self section relocate;
      mret (Some descriptor)
  end.

(** A slot filled from the section of the given name, if there is one: its
    bytes are read into a descriptor and decompressed. *)
Definition decompressed_slot `{Platform, Zlib, RelocationHandler}
    (self : WasmFile) (relocate : bool) (name : string)
  : result (option DebugSectionDescriptor.t) :=
  match get_section_by_name self name with
  | None => Ok None
  | Some section =>
      descriptor ← _read_dwarf_section self section relocate;
      descriptor ← _decompress_dwarf_section descriptor;
      mret (Some descriptor)
  end.

(** The bundle of a file that follows the compressed naming convention:
    every canonical name is looked up under its [.z] variant and what is
    found is decompressed; [.eh_frame] is looked up as it is and is not. *)
Definition compressed_dwarf_info `{Platform, Zlib, RelocationHandler}
    (self : WasmFile) (relocate : bool) : result DWARFInfo :=
  info ← decompressed_slot self relocate ".zdebug_info";
  aranges ← decompressed_slot self relocate ".zdebug_aranges";
  abbrev ← decompressed_slot self relocate ".zdebug_abbrev";
  str ← decompressed_slot self relocate ".zdebug_str";
  line ← decompressed_slot self relocate ".zdebug_line";
  frame ← decompressed_slot self relocate ".zdebug_frame";
  loc ← decompressed_slot self relocate ".zdebug_loc";
  ranges ← decompressed_slot self relocate ".zdebug_ranges";
  pubtypes ← decompressed_slot self relocate ".zdebug_pubtypes";
  pubnames ← decompressed_slot self relocate ".zdebug_pubnames";
  eh_frame ← plain_slot self relocate ".eh_frame";
  mret (bundle info aranges abbrev str line frame loc ranges pubtypes pubnames
               eh_frame).

(** The bundle of a file that does not: every name is looked up as it is
    and nothing is decompressed. *)
Definition plain_dwarf_info `{RelocationHandler}
    (self : WasmFile) (relocate : bool) : result DWARFInfo :=
  info ← plain_slot self relocate ".debug_info";
  aranges ← plain_slot self relocate ".debug_aranges";
  abbrev ← plain_slot self relocate ".debug_abbrev";
  str ← plain_slot self relocate ".debug_str";
  line ← plain_slot self relocate ".debug_line";
  frame ← plain_slot self relocate ".debug_frame";
  loc ← plain_slot self relocate ".debug_loc";
  ranges ← plain_slot self relocate ".debug_ranges";
  pubtypes ← plain_slot self relocate ".debug_pubtypes";
  pubnames ← plain_slot self relocate ".debug_pubnames";
  eh_frame ← plain_slot self relocate ".eh_frame";
  mret (bundle info aranges abbrev str line frame loc ranges pubtypes pubnames
               eh_frame).

(** ** Example inputs *)

(** [b'...'] for a literal. *)
Definition literal (s : string) : bytes := String.list_ascii_of_string s.

(** The minimal file: the prologue and one user section named
    [.debug_info] that carries [data]. *)
Definition debug_info_module (data : bytes) : bytes :=
  module_bytes [(WasmSection.User, user_payload (literal ".debug_info") data)].

(** The descriptor [_read_dwarf_section] builds for a section with the given
    name and data when it applies no relocation. *)
Definition descriptor_of (name : string) (data : bytes) : DebugSectionDescriptor.t :=
  {| DebugSectionDescriptor.stream := {| buf := data; pos := length data |};
     DebugSectionDescriptor.name := name;
     DebugSectionDescriptor.global_offset := 0;
     DebugSectionDescriptor.size := Z.of_nat (length data);
     DebugSectionDescriptor.address := 0 |}.

(** [zlib.compress(b'hi', 0)]: header 78 01, one final stored block of
    length 2, the Adler-32 of the two bytes. *)
Definition zlib_hi : bytes :=
  map chr [120; 1; 1; 2; 0; 253; 255; 104; 105; 1; 59; 0; 210].

(** The envelope of a compressed debug section around [zlib_hi]. *)
Definition ZLIB_hi : bytes := ZLIB ++ int_to_bytes_big 8 2 ++ zlib_hi.

(** A file with a compressed [.zdebug_info] and an [.eh_frame]. *)
Definition compressed_module : bytes :=
  module_bytes [(WasmSection.User, user_payload (literal ".zdebug_info") ZLIB_hi);
                (WasmSection.Code, literal "code");
                (WasmSection.User, user_payload (literal ".eh_frame") (literal "frames"))].

(** The object [__init__] builds from [compressed_module] on Python 2. *)
Definition compressed_file : WasmFile :=
  {| stream := {| buf := compressed_module; pos := length compressed_module |};
     version := version_1;
     _section_name_map :=
       <[WasmSection.User := [user_payload (literal ".zdebug_info") ZLIB_hi;
                              user_payload (literal ".eh_frame") (literal "frames")]]>
       (<[WasmSection.Code := [literal "code"]]> ∅);
     _custom_section_name_map :=
       <[".eh_frame" := WasmSection.__init__ ".eh_frame" (literal "frames")]>
       (<[".zdebug_info" := WasmSection.__init__ ".zdebug_info" ZLIB_hi]> ∅);
     header := None;
     structs := None;
     _file_stringtable_section := None |}.

(** The payloads of the chunks of kind [code], in file order. *)
Definition payloads_of (code : Z) (chunks : list (Z * bytes)) : list bytes :=
  map snd (filter (fun c => fst c = code) chunks).

(** A file with two user sections of the same name. *)
Definition duplicate_module : bytes :=
  module_bytes [(WasmSection.User, user_payload (literal "dup") (literal "first"));
                (WasmSection.User, user_payload (literal "other") (literal "x"));
                (WasmSection.User, user_payload (literal "dup") (literal "second"))].

(** The object [__init__] builds from [duplicate_module] on Python 2. *)
Definition duplicate_file : WasmFile :=
  {| stream := {| buf := duplicate_module; pos := length duplicate_module |};
     version := version_1;
     _section_name_map :=
       <[WasmSection.User := [user_payload (literal "dup") (literal "first");
                              user_payload (literal "other") (literal "x");
                              user_payload (literal "dup") (literal "second")]]> ∅;
     _custom_section_name_map :=
       <["other" := WasmSection.__init__ "other" (literal "x")]>
       (<["dup" := WasmSection.__init__ "dup" (literal "second")]> ∅);
     header := None;
     structs := None;
     _file_stringtable_section := None |}.

(** A file cut short: its only chunk is a user section that declares five
    bytes of payload, and two bytes follow. *)
Definition truncated_module : bytes :=
  magic ++ version_1 ++ [chr 0; chr 5; chr 1; "a"%char].


(** ** Address ranges, as the specification words them *)

(** The segment's range [vaddr, vaddr + file_size) entirely contains
    [start, start + size). *)
Definition contains_range (h : Elf_Phdr_t) (start size : Z) : Prop :=
  ∀ a, start <= a < start + size → p_vaddr h <= a < p_vaddr h + p_filesz h.

(** The test [address_offsets] applies to a segment. *)
Definition covers (start size : Z) (seg : ELFSegment) : Prop :=
  p_type (segment_header seg) = "PT_LOAD"
  ∧ p_vaddr (segment_header seg) <= start
  ∧ start + size <= p_vaddr (segment_header seg) + p_filesz (segment_header seg).

#[global] Instance covers_dec (start size : Z) (seg : ELFSegment) :
  Decision (covers start size seg).
Proof. unfold covers. apply _. Defined.

(** The file offset of [start] in a segment. *)
Definition offset_in (start : Z) (seg : ELFSegment) : Z :=
  start - p_vaddr (segment_header seg) + p_offset (segment_header seg).

(** An object whose [header] and [structs] were assigned from outside: a
    table of three segments, the second a note that aliases the first. *)
Definition three_segments : parser Elf_Phdr_t :=
  fun _ stream_pos =>
    if decide (stream_pos = 64) then
      Ok {| p_type := "PT_LOAD"; p_offset := 512; p_vaddr := 4096;
            p_filesz := 256; p_memsz := 256 |}
    else if decide (stream_pos = 96) then
      Ok {| p_type := "PT_NOTE"; p_offset := 1280; p_vaddr := 4096;
            p_filesz := 256; p_memsz := 256 |}
    else if decide (stream_pos = 128) then
      Ok {| p_type := "PT_LOAD"; p_offset := 768; p_vaddr := 4224;
            p_filesz := 256; p_memsz := 256 |}
    else Raise ELFError.

Definition segmented_file : WasmFile :=
  {| stream := BytesIO [];
     version := version_1;
     _section_name_map := ∅;
     _custom_section_name_map := ∅;
     header := Some (<["e_phnum" := 3]> (<["e_phoff" := 64]>
                    (<["e_phentsize" := 32]> ∅)));
     structs := Some {| Elf_Ehdr := fun _ _ => Raise ELFError;
                        Elf_Shdr := fun _ _ => Raise ELFError;
                        Elf_Phdr := three_segments |};
     _file_stringtable_section := None |}.

(** The object [__init__] builds from the minimal file with an empty
    payload, on Python 3. *)
Definition minimal_file : WasmFile :=
  {| stream := {| buf := debug_info_module []; pos := length (debug_info_module []) |};
     version := version_1;
     _section_name_map :=
       <[WasmSection.User := [user_payload (literal ".debug_info") []]]> ∅;
     _custom_section_name_map :=
       <["b'.debug_info'" := WasmSection.__init__ "b'.debug_info'" []]> ∅;
     header := None;
     structs := None;
     _file_stringtable_section := None |}.

(** Every entry of the custom section map was built by
    [WasmSection.__init__] under its own name. *)
Definition built_by_init (d : gmap string WasmSection.t) : Prop :=
  ∀ name section, d !! name = Some section →
                  ∃ data, section = WasmSection.__init__ name data.

(** ** zlib, as the specification assumes it *)

(** A decompression object is a stream transducer: feeding it nothing does
    nothing, and feeding it two chunks one after the other is feeding it
    their concatenation. *)
Definition zlib_streaming `{Zlib} : Prop :=
  (∀ st, decompress st [] = Ok ([], st))
  ∧ (∀ st a b,
       decompress st (a ++ b)
       = ('(out1, st1) ← decompress st a;
          '(out2, st2) ← decompress st1 b;
          mret (out1 ++ out2, st2))).

(** [d = zlib.decompressobj(); d.decompress(z) + d.flush()]: the bytes a
    fresh decompression object makes of [z].  [z] is a zlib-compressed
    encoding of [payload] when this returns [payload]. *)
Definition zlib_inflate `{Zlib} (z : bytes) : result bytes :=
  '(out, d) ← decompress decompressobj z;
  out' ← flush d;
  mret (out ++ out').

(** The descriptor [_decompress_dwarf_section] returns: the metadata of
    [section], the stream and the size of the inflated bytes. *)
Definition decompressed (section : DebugSectionDescriptor.t) (out : bytes)
  : DebugSectionDescriptor.t :=
  {| DebugSectionDescriptor.stream := {| buf := out; pos := length out |};
     DebugSectionDescriptor.name := DebugSectionDescriptor.name section;
     DebugSectionDescriptor.global_offset :=
       DebugSectionDescriptor.global_offset section;
     DebugSectionDescriptor.size := Z.of_nat (length out);
     DebugSectionDescriptor.address := DebugSectionDescriptor.address section |}.

(** A compressed section whose envelope is in order (tag, declared size 0)
    and whose compressed bytes are not a zlib stream. *)
Definition garbage_section : DebugSectionDescriptor.t :=
  descriptor_of ".zdebug_info" (ZLIB ++ int_to_bytes_big 8 0 ++ [chr 255; chr 255]).

(** The compressed section around [zlib_hi]. *)
Definition hi_section : DebugSectionDescriptor.t :=
  descriptor_of ".zdebug_info" ZLIB_hi.

(** ** The private helpers the claims leave aside *)

(** Parses the ELF file header and returns it. *)
Definition _parse_elf_header (self : WasmFile) : result (gmap string Z) :=
  st ← get_structs self;
  struct_parse (Elf_Ehdr st) (stream self) 0.

(** Find the file's string table section. *)
Definition _get_file_stringtable (self : WasmFile) : result ELFSection :=
  stringtable_section_num ← __getitem__ self "e_shstrndx";
  section_header ← _get_section_header self stringtable_section_num;
  mret (StringTableSection section_header "").

(** ** More example inputs *)

(** A page of one byte: the decompression loop then feeds one byte a turn. *)
Definition page_1 : Platform := {| PAGESIZE := 1; PAGESIZE_pos := eq_refl |}.

(** The first bytes of an ELF file. *)
Definition elf_prologue : bytes :=
  [chr 127; "E"; "L"; "F"; chr 2; chr 1; chr 1; chr 0]%char.

(** A file with the prologue and a single code chunk: no user section. *)
Definition code_only_module : bytes :=
  module_bytes [(WasmSection.Code, literal "code")].


(** The payload of the user section with the given name and data. *)
Definition user_payload_of (section : bytes * bytes) : bytes :=
  user_payload (fst section) (snd section).

(** The slot a section of the given name fills when nothing is relocated or
    decompressed: the descriptor of its name and data, or [None]. *)
Definition descriptor_slot (self : WasmFile) (name : string)
  : option DebugSectionDescriptor.t :=
  match get_section_by_name self name with
  | Some section => Some (descriptor_of name (WasmSection.data section))
  | None => None
  end.

(** The names [get_dwarf_info] looks up when the compressed naming
    convention applies. *)
Definition compressed_names : list string :=
  [".zdebug_info"; ".zdebug_aranges"; ".zdebug_abbrev"; ".zdebug_str";
   ".zdebug_line"; ".zdebug_frame"; ".zdebug_loc"; ".zdebug_ranges";
   ".zdebug_pubtypes"; ".zdebug_pubnames"; ".eh_frame"].

(** [compressed_file] with one more section, under a canonical name. *)
Definition compressed_file_with_plain : WasmFile :=
  {| stream := stream compressed_file;
     version := version_1;
     _section_name_map := _section_name_map compressed_file;
     _custom_section_name_map :=
       <[".debug_abbrev" := WasmSection.__init__ ".debug_abbrev" (literal "abbrevs")]>
       (_custom_section_name_map compressed_file);
     header := None;
     structs := None;
     _file_stringtable_section := None |}.

(** A file whose [.zdebug_info] section is too short to hold the envelope
    of a compressed section, and the object [__init__] builds from it on
    Python 2. *)
Definition short_zdebug_module : bytes :=
  module_bytes [(WasmSection.User, user_payload (literal ".zdebug_info") (literal "ZLIB"));
                (WasmSection.User, user_payload (literal ".eh_frame") (literal "frames"))].

Definition short_zdebug_file : WasmFile :=
  {| stream := {| buf := short_zdebug_module; pos := length short_zdebug_module |};
     version := version_1;
     _section_name_map :=
       <[WasmSection.User := [user_payload (literal ".zdebug_info") (literal "ZLIB");
                              user_payload (literal ".eh_frame") (literal "frames")]]> ∅;
     _custom_section_name_map :=
       <[".zdebug_info" := WasmSection.__init__ ".zdebug_info" (literal "ZLIB")]>
       (<[".eh_frame" := WasmSection.__init__ ".eh_frame" (literal "frames")]> ∅);
     header := None;
     structs := None;
     _file_stringtable_section := None |}.


(** A relocation handler that finds a relocation section for every section
    and applies it by overwriting the first byte of the stream. *)
Definition patching_relocations : RelocationHandler :=
  {| reloc_section := unit;
     find_relocations_for_section := fun _ _ => Ok (Some ());
     apply_section_relocations := fun s _ =>
       Ok {| buf := "!"%char :: drop 1 (buf s); pos := pos s |} |}.

(** * Properties *)

(** Results are run by unfolding the binds only. *)
Ltac run := cbn [mbind result_bind mret result_ret elf_assert].

#[global] Arguments read : simpl never.
#[global] Arguments read_ULEB128 : simpl never.
#[global] Arguments remaining : simpl never.
#[global] Arguments encode_ULEB128 : simpl never.

(** ** Bytes *)

Lemma ord_range (c : ascii) : 0 <= ord c < 256.
Proof.
  unfold ord. pose proof (N_ascii_bounded c). lia.
Qed.

Lemma ord_chr (n : Z) : 0 <= n < 256 → ord (chr n) = n.
Proof.
  intros Hn. unfold ord, chr. rewrite N_ascii_embedding by lia. lia.
Qed.

Lemma chr_ord (c : ascii) : chr (ord c) = c.
Proof.
  unfold ord, chr. rewrite N2Z.id. apply ascii_N_embedding.
Qed.

Lemma land_127 (x : Z) : Z.land x 127 = x mod 128.
Proof. change 127 with (Z.ones 7). rewrite Z.land_ones by lia. reflexivity. Qed.

Lemma land_128_small (x : Z) : 0 <= x < 128 → Z.land x 128 = 0.
Proof.
  intros Hx. apply Z.bits_inj'. intros k Hk.
  rewrite Z.land_spec, Z.bits_0.
  destruct (decide (k = 7)) as [->|Hne].
  - replace (Z.testbit x 7) with false; [reflexivity|].
    symmetry. apply Z.bits_above_log2; [lia|].
    destruct (decide (x = 0)) as [->|]; [simpl; lia|].
    apply Z.log2_lt_pow2; lia.
  - change 128 with (2 ^ 7). rewrite Z.pow2_bits_false by lia.
    apply andb_false_r.
Qed.

Lemma land_128_big (x : Z) : 0 <= x < 128 → Z.land (x + 128) 128 ≠ 0.
Proof.
  intros Hx Heq.
  assert (Hbit : Z.testbit (Z.land (x + 128) 128) 7 = true).
  { rewrite Z.land_spec. change 128 with (2 ^ 7) at 2.
    rewrite Z.pow2_bits_true by lia. rewrite andb_true_r.
    rewrite Z.testbit_true by lia.
    change (2 ^ 7) with 128.
    replace ((x + 128) / 128) with 1; [reflexivity|].
    apply Z.div_unique with (r := x); lia. }
  rewrite Heq in Hbit. rewrite Z.bits_0 in Hbit. discriminate.
Qed.

(** ** The varint codec *)

Lemma read_ULEB128_loop_encode (bound : nat) :
  ∀ n rest ret shifts,
    0 <= n → 0 <= shifts → Z.log2 n < Z.of_nat bound →
    read_ULEB128_loop (encode_ULEB128_digits bound n ++ rest) ret shifts
    = Ok (ret + n * 2 ^ shifts, rest).
Proof.
  induction bound as [|bound IH]; intros n rest ret shifts Hn Hs Hlog.
  - pose proof (Z.log2_nonneg n). lia.
  - simpl. destruct (decide (n < 128)) as [Hsmall|Hbig].
    + simpl. rewrite ord_chr by lia.
      rewrite land_127, Z.mod_small by lia.
      rewrite Z.shiftl_mul_pow2 by lia.
      rewrite decide_True by (apply land_128_small; lia). reflexivity.
    + simpl. pose proof (Z.mod_pos_bound n 128 ltac:(lia)) as Hmod.
      rewrite ord_chr by lia.
      rewrite decide_False by (apply land_128_big; lia).
      rewrite IH.
      * rewrite land_127. rewrite Z.shiftl_mul_pow2 by lia.
        f_equal. f_equal.
        replace ((n mod 128 + 128) mod 128) with (n mod 128)
          by (rewrite <- Z.add_mod_idemp_r, Z.mod_same, Z.add_0_r, Z.mod_mod; lia).
        rewrite Z.pow_add_r by lia.
        pose proof (Z.div_mod n 128 ltac:(lia)). nia.
      * apply Z.div_pos; lia.
      * lia.
      * change 128 with (2 ^ 7). rewrite <- Z.shiftr_div_pow2 by lia.
        rewrite Z.log2_shiftr by lia.
        pose proof (Z.log2_le_mono 128 n ltac:(lia)) as Hle.
        change (Z.log2 128) with 7 in Hle. lia.
Qed.

Lemma read_ULEB128_loop_encode_ULEB128 (n : Z) (rest : bytes) :
  0 <= n → read_ULEB128_loop (encode_ULEB128 n ++ rest) 0 0 = Ok (n, rest).
Proof.
  intros Hn. unfold encode_ULEB128.
  rewrite read_ULEB128_loop_encode; [|lia|lia|].
  - f_equal. f_equal. lia.
  - pose proof (Z.log2_nonneg n). lia.
Qed.

Lemma encode_ULEB128_nonempty (n : Z) : encode_ULEB128 n ≠ [].
Proof.
  unfold encode_ULEB128. simpl. destruct (decide (n < 128)); discriminate.
Qed.

(** Reading a varint from a stream whose next bytes are an encoding. *)
Lemma read_ULEB128_stream (s : Stream) (n : Z) (rest : bytes) :
  0 <= n → remaining s = encode_ULEB128 n ++ rest →
  read_ULEB128 s
  = Ok (n, {| buf := buf s; pos := pos s + length (encode_ULEB128 n) |}).
Proof.
  intros Hn Hrem. unfold read_ULEB128. rewrite Hrem.
  rewrite read_ULEB128_loop_encode_ULEB128 by lia. simpl.
  f_equal. f_equal. f_equal.
  assert (Hlen : length (remaining s) = length (encode_ULEB128 n ++ rest))
    by (rewrite Hrem; reflexivity).
  unfold remaining in Hlen. rewrite length_drop, length_app in Hlen.
  pose proof (encode_ULEB128_nonempty n) as Hne.
  destruct (encode_ULEB128 n); [done|]. simpl in *. lia.
Qed.

Lemma remaining_advance (s : Stream) (a b : bytes) :
  remaining s = a ++ b →
  remaining {| buf := buf s; pos := pos s + length a |} = b.
Proof.
  unfold remaining. simpl. intros H.
  rewrite <- drop_drop, H. apply drop_app_length.
Qed.

Lemma read_ULEB128_loop_truncated (bs : bytes) :
  ∀ ret shifts,
    Forall (fun c => Z.land (ord c) 128 ≠ 0) bs →
    read_ULEB128_loop bs ret shifts = Raise TypeError.
Proof.
  induction bs as [|c bs IH]; intros ret shifts Hall; [reflexivity|].
  inversion Hall as [|? ? Hc Hbs]; subst. simpl.
  rewrite decide_False by exact Hc. apply IH. exact Hbs.
Qed.

Example encode_ULEB128_624485 :
  map ord (encode_ULEB128 624485) = [229; 142; 38].
Proof. reflexivity. Qed.

(** C5: for every unsigned integer n in [0, 2^64-1], [read_ULEB128] applied
    to a stream whose next bytes are the ULEB128 encoding of n returns n and
    leaves the stream just after the encoding; and on a stream whose
    remaining bytes all have the high bit set (no terminating byte before the
    end of the stream) it raises instead of returning a value. *)
Theorem read_ULEB128_encode_ULEB128 :
  (∀ n pre rest,
      0 <= n <= 2 ^ 64 - 1 →
      read_ULEB128 {| buf := pre ++ encode_ULEB128 n ++ rest; pos := length pre |}
      = Ok (n, {| buf := pre ++ encode_ULEB128 n ++ rest;
                  pos := length pre + length (encode_ULEB128 n) |}))
  ∧ (∀ s,
      Forall (fun c => Z.land (ord c) 128 ≠ 0) (remaining s) →
      read_ULEB128 s = Raise TypeError).
Proof.
  split.
  - intros n pre rest Hn.
    apply (read_ULEB128_stream
             {| buf := pre ++ encode_ULEB128 n ++ rest; pos := length pre |}
             n rest); [lia|].
    unfold remaining. simpl. apply drop_app_length.
  - intros s Hall. unfold read_ULEB128.
    rewrite read_ULEB128_loop_truncated by exact Hall. reflexivity.
Qed.

Lemma read_ULEB128_encode_ULEB128_witness :
  (0 <= 18446744073709551615 <= 2 ^ 64 - 1
   ∧ read_ULEB128 (BytesIO (encode_ULEB128 18446744073709551615 ++ ["x"%char]))
     = Ok (18446744073709551615,
           {| buf := encode_ULEB128 18446744073709551615 ++ ["x"%char];
              pos := 10 |}))
  ∧ (Forall (fun c => Z.land (ord c) 128 ≠ 0)
            (remaining (BytesIO [chr 128; chr 255; chr 129]))
     ∧ read_ULEB128 (BytesIO [chr 128; chr 255; chr 129]) = Raise TypeError).
Proof.
  split.
  - split; [vm_compute; split; discriminate|].
    apply (proj1 read_ULEB128_encode_ULEB128 18446744073709551615 [] ["x"%char]).
    vm_compute; split; discriminate.
  - assert (H : Forall (fun c => Z.land (ord c) 128 ≠ 0)
                       (remaining (BytesIO [chr 128; chr 255; chr 129])))
      by (repeat constructor; vm_compute; discriminate).
    split; [exact H|].
    apply (proj2 read_ULEB128_encode_ULEB128 _ H).
Defined.

(** ** Streams *)

Lemma read_exact (s : Stream) (a b : bytes) (n : Z) :
  remaining s = a ++ b → n = Z.of_nat (length a) →
  read n s = (a, {| buf := buf s; pos := pos s + length a |}).
Proof.
  intros Hrem ->. unfold read.
  rewrite decide_False by lia. rewrite Nat2Z.id, Hrem, take_app_length.
  reflexivity.
Qed.

Lemma read_short (s : Stream) (n : Z) :
  Z.of_nat (length (remaining s)) <= n →
  read n s = (remaining s, {| buf := buf s; pos := pos s + length (remaining s) |}).
Proof.
  intros Hn. unfold read.
  rewrite decide_False by lia. rewrite take_ge by lia. reflexivity.
Qed.

Lemma read_ULEB128_loop_inv (bs : bytes) :
  ∀ ret shifts v rest,
    read_ULEB128_loop bs ret shifts = Ok (v, rest) →
    ∃ used, used ≠ [] ∧ bs = used ++ rest.
Proof.
  induction bs as [|c bs IH]; intros ret shifts v rest H; simpl in H; [done|].
  destruct (decide (Z.land (ord c) 128 = 0)).
  - injection H as _ <-. exists [c]. done.
  - apply IH in H as (used & _ & ->). exists (c :: used). done.
Qed.

(** A varint read that returns leaves the contents alone and moves the
    position forward, by at least one byte and not past the end. *)
Lemma read_ULEB128_inv (s s' : Stream) (v : Z) :
  read_ULEB128 s = Ok (v, s') →
  buf s' = buf s ∧ (pos s < pos s' ≤ length (buf s))%nat.
Proof.
  unfold read_ULEB128. intros H.
  destruct (read_ULEB128_loop (remaining s) 0 0) as [[v' rest]|e] eqn:Hloop;
    simpl in H; [|done].
  injection H as _ <-. simpl. split; [done|].
  apply read_ULEB128_loop_inv in Hloop as (used & Hne & Hrem).
  assert (Hlen : length (remaining s) = length (used ++ rest))
    by (rewrite Hrem; reflexivity).
  unfold remaining in Hlen. rewrite length_drop, length_app in Hlen.
  destruct used; [done|]. simpl in Hlen. lia.
Qed.

(** The only exception a varint read raises is the one of [ord]. *)
Lemma read_ULEB128_raises (s : Stream) (e : exn) :
  read_ULEB128 s = Raise e → e = TypeError.
Proof.
  unfold read_ULEB128.
  destruct (read_ULEB128_loop (remaining s) 0 0) as [[? ?]|e'] eqn:Hl;
    simpl; [done|].
  intros [= <-]. revert Hl. generalize 0 at 1. generalize 0.
  induction (remaining s) as [|c l IHl]; intros a b; simpl; [congruence|].
  destruct (decide _); [done|]. apply IHl.
Qed.

(** ** The section walk *)

Lemma _read_sections_loop_S (bound : nat) (total : Z) d (s : Stream) :
  _read_sections_loop (S bound) total d s
  = if decide (tell s < total) then
      '(code, s) ← read_ULEB128 s;
      '(size, s) ← read_ULEB128 s;
      let '(payload, s) := read size s in
      _read_sections_loop bound total (setdefault_append code payload d) s
    else Ok (d, s).
Proof. reflexivity. Qed.

Lemma _read_sections_loop_chunks (chunks : list (Z * bytes)) :
  ∀ bound d s,
    Forall (fun c => 0 <= fst c) chunks →
    remaining s = concat (map chunk_bytes chunks) →
    (pos s ≤ length (buf s))%nat →
    (length (remaining s) ≤ bound)%nat →
    _read_sections_loop bound (st_size s) d s
    = Ok (chunks_map chunks d, {| buf := buf s; pos := length (buf s) |}).
Proof.
  induction chunks as [|[code payload] chunks IH]; intros bound d s Hcodes Hrem Hpos Hbound.
  - simpl in Hrem.
    assert (Hend : pos s = length (buf s)).
    { assert (Hl : length (remaining s) = 0%nat) by (rewrite Hrem; reflexivity).
      unfold remaining in Hl. rewrite length_drop in Hl. lia. }
    destruct bound; simpl;
      (rewrite decide_False by (unfold tell, st_size; lia));
      destruct s; simpl in *; subst; reflexivity.
  - inversion Hcodes as [|? ? Hcode Hcodes']; subst. simpl in Hcode.
    simpl in Hrem. unfold chunk_bytes in Hrem at 1. simpl in Hrem.
    rewrite <- !app_assoc in Hrem.
    pose proof (encode_ULEB128_nonempty code) as Hne.
    assert (Hlen : length (remaining s)
                   = length (encode_ULEB128 code ++
                               encode_ULEB128 (Z.of_nat (length payload)) ++
                               payload ++ concat (map chunk_bytes chunks)))
      by (rewrite Hrem; reflexivity).
    rewrite !length_app in Hlen.
    assert (Hpos' : (0 < length (encode_ULEB128 code))%nat)
      by (destruct (encode_ULEB128 code); [done|simpl; lia]).
    assert (Hrl : length (remaining s) = (length (buf s) - pos s)%nat)
      by (unfold remaining; apply length_drop).
    destruct bound as [|bound]; [lia|].
    rewrite _read_sections_loop_S.
    rewrite decide_True by (unfold tell, st_size; lia).
    rewrite (read_ULEB128_stream s code _ Hcode Hrem). run.
    pose proof (remaining_advance s _ _ Hrem) as Hrem1.
    set (s1 := {| buf := buf s; pos := pos s + length (encode_ULEB128 code) |}) in *.
    rewrite (read_ULEB128_stream s1 _ _ (Nat2Z.is_nonneg _) Hrem1). run.
    pose proof (remaining_advance s1 _ _ Hrem1) as Hrem2.
    set (s2 := {| buf := buf s1;
                  pos := pos s1 + length (encode_ULEB128 (Z.of_nat (length payload))) |}) in *.
    rewrite (read_exact s2 payload _ _ Hrem2 eq_refl).
    pose proof (remaining_advance s2 _ _ Hrem2) as Hrem3.
    set (s3 := {| buf := buf s2; pos := pos s2 + length payload |}) in *.
    change (st_size s) with (st_size s3).
    rewrite (IH bound (setdefault_append code payload d) s3 Hcodes' Hrem3).
    + reflexivity.
    + subst s3 s2 s1. simpl. lia.
    + rewrite Hrem3. lia.
Qed.

(** The bound the walk starts with is never reached. *)
Lemma _read_sections_loop_bound (bound : nat) :
  ∀ d s,
    (pos s ≤ length (buf s))%nat →
    (length (remaining s) ≤ bound)%nat →
    _read_sections_loop bound (st_size s) d s ≠ Raise LoopBound.
Proof.
  induction bound as [|bound IH]; intros d s Hpos Hbound.
  - simpl. unfold remaining in Hbound. rewrite length_drop in Hbound.
    rewrite decide_False by (unfold tell, st_size; lia). done.
  - rewrite _read_sections_loop_S.
    destruct (decide (tell s < st_size s)); [|done].
    destruct (read_ULEB128 s) as [[code s1]|e] eqn:H1; run.
    2:{ apply read_ULEB128_raises in H1 as ->. done. }
    apply read_ULEB128_inv in H1 as Hinv1. destruct Hinv1 as [Hb1 Hp1].
    destruct (read_ULEB128 s1) as [[size s2]|e] eqn:H2; run.
    2:{ apply read_ULEB128_raises in H2 as ->. done. }
    apply read_ULEB128_inv in H2 as Hinv2. destruct Hinv2 as [Hb2 Hp2].
    destruct (read size s2) as [payload s3] eqn:H3.
    assert (Hs3 : buf s3 = buf s2 ∧ (pos s2 ≤ pos s3 ≤ length (buf s2))%nat).
    { unfold read in H3. injection H3 as <- <-. simpl. split; [done|].
      assert (length (remaining s2) = (length (buf s2) - pos s2)%nat)
        by (unfold remaining; apply length_drop).
      assert (pos s2 ≤ length (buf s2))%nat by (rewrite Hb2; lia).
      destruct (decide (size < 0)); [lia|].
      rewrite length_take. lia. }
    destruct Hs3 as [Hb3 Hp3].
    replace (st_size s) with (st_size s3)
      by (unfold st_size; rewrite Hb3, Hb2, Hb1; reflexivity).
    apply IH.
    + rewrite Hb3. lia.
    + unfold remaining in *. rewrite length_drop in *.
      rewrite Hb3, Hb2, Hb1. lia.
Qed.

Lemma remaining_BytesIO (b : bytes) : remaining (BytesIO b) = b.
Proof. reflexivity. Qed.

(** A user section laid out as name and data parses to that name, as [str]
    gives it, and that data. *)
Lemma custom_section_user_payload (py : PyVersion) (name data : bytes) :
  custom_section py (user_payload name data)
  = Ok (WasmSection.__init__ (py_str py name) data).
Proof.
  unfold custom_section, read_WasmString, user_payload.
  set (enc := encode_ULEB128 (Z.of_nat (length name))).
  rewrite (read_ULEB128_stream (BytesIO (enc ++ name ++ data))
             (Z.of_nat (length name)) (name ++ data) (Nat2Z.is_nonneg _) eq_refl).
  run. fold enc.
  pose proof (remaining_advance (BytesIO (enc ++ name ++ data)) enc (name ++ data) eq_refl)
    as Hrem1.
  set (s1 := {| buf := buf (BytesIO (enc ++ name ++ data));
                pos := pos (BytesIO (enc ++ name ++ data)) + length enc |}) in *.
  rewrite (read_exact s1 name data _ Hrem1 eq_refl). run.
  pose proof (remaining_advance s1 name data Hrem1) as Hrem2.
  set (s2 := {| buf := buf s1; pos := pos s1 + length name |}) in *.
  rewrite (read_short s2).
  - rewrite Hrem2. reflexivity.
  - rewrite Hrem2. unfold tell. subst s2 s1. simpl.
    rewrite !length_app. lia.
Qed.

(** What [__init__] returns on a file laid out as a list of chunks: it fails
    only when no chunk is a user section or a user section does not parse. *)
Lemma __init___module_bytes (py : PyVersion) (chunks : list (Z * bytes)) :
  Forall (fun c => 0 <= fst c) chunks →
  __init__ py (open_file (module_bytes chunks))
  = (user_sections ← match chunks_map chunks ∅ !! WasmSection.User with
                     | Some l => Ok l
                     | None => Raise KeyError
                     end;
     custom ← _read_custom_sections py user_sections ∅;
     mret {| stream := {| buf := module_bytes chunks;
                          pos := length (module_bytes chunks) |};
             version := version_1;
             _section_name_map := chunks_map chunks ∅;
             _custom_section_name_map := custom;
             header := None;
             structs := None;
             _file_stringtable_section := None |}).
Proof.
  intros Hcodes. unfold __init__, _identify_file, open_file, module_bytes.
  set (body := concat (map chunk_bytes chunks)).
  rewrite (read_exact (seek0 (BytesIO (magic ++ version_1 ++ body)))
             magic (version_1 ++ body) 4 eq_refl eq_refl).
  rewrite bool_decide_eq_true_2 by reflexivity. run.
  set (s4 := {| buf := buf (seek0 (BytesIO (magic ++ version_1 ++ body)));
                pos := pos (seek0 (BytesIO (magic ++ version_1 ++ body))) + length magic |}).
  rewrite (read_exact s4 version_1 body 4 eq_refl eq_refl). run.
  set (s8 := {| buf := buf s4; pos := pos s4 + length version_1 |}).
  unfold _read_sections. cbv zeta.
  rewrite (_read_sections_loop_chunks chunks _ ∅ s8 Hcodes eq_refl).
  - run. destruct (chunks_map chunks ∅ !! WasmSection.User); run; [|done].
    destruct (_read_custom_sections py l ∅); run; done.
  - subst s8 s4. simpl. lia.
  - lia.
Qed.

(** ** The debug bundle *)

Section DebugInfo.
Context `{Platform, Zlib, RelocationHandler}.

Lemma _debug_section_plain (self : WasmFile) (relocate : bool) (name : string) :
  startswith_z name = false →
  ∀ compressed, _debug_section self relocate compressed name
                = plain_slot self relocate name.
Proof.
  intros Hz compressed. unfold _debug_section, plain_slot.
  rewrite Hz, andb_false_r.
  destruct (get_section_by_name self name); [|done].
  destruct (_read_dwarf_section self t relocate); done.
Qed.

Lemma _debug_section_uncompressed (self : WasmFile) (relocate : bool) (name : string) :
  _debug_section self relocate false name = plain_slot self relocate name.
Proof.
  unfold _debug_section, plain_slot.
  destruct (get_section_by_name self name); [|done].
  destruct (_read_dwarf_section self t relocate); done.
Qed.

Lemma _debug_section_compressed (self : WasmFile) (relocate : bool) (name : string) :
  startswith_z name = true →
  _debug_section self relocate true name = decompressed_slot self relocate name.
Proof.
  intros Hz. unfold _debug_section, decompressed_slot. rewrite Hz.
  reflexivity.
Qed.

(** Running [get_dwarf_info] on eleven distinct names. *)
Ltac run_slots :=
  repeat match goal with
         | |- context [plain_slot ?f ?r ?n] =>
             destruct (plain_slot f r n); run; [|reflexivity]
         | |- context [decompressed_slot ?f ?r ?n] =>
             destruct (decompressed_slot f r n); run; [|reflexivity]
         end.

Lemma get_dwarf_info_uncompressed (self : WasmFile) (relocate : bool) :
  get_section_by_name self ".zdebug_info" = None →
  get_dwarf_info self relocate = plain_dwarf_info self relocate.
Proof.
  intros Hz. unfold get_dwarf_info, plain_dwarf_info. rewrite Hz.
  cbn [bool_ truthy].
  change (section_names ++ [".eh_frame"])
    with [".debug_info"; ".debug_aranges"; ".debug_abbrev"; ".debug_str";
          ".debug_line"; ".debug_frame"; ".debug_loc"; ".debug_ranges";
          ".debug_pubtypes"; ".debug_pubnames"; ".eh_frame"].
  cbn [_debug_sections_loop].
  rewrite !_debug_section_uncompressed.
  run_slots.
  unfold dict_get. simplify_map_eq. reflexivity.
Qed.

Lemma get_dwarf_info_compressed (self : WasmFile) (relocate : bool) :
  is_Some (get_section_by_name self ".zdebug_info") →
  get_dwarf_info self relocate = compressed_dwarf_info self relocate.
Proof.
  intros [section Hz]. unfold get_dwarf_info, compressed_dwarf_info. rewrite Hz.
  cbn [bool_ truthy].
  change (map z_name section_names ++ [".eh_frame"])
    with [".zdebug_info"; ".zdebug_aranges"; ".zdebug_abbrev"; ".zdebug_str";
          ".zdebug_line"; ".zdebug_frame"; ".zdebug_loc"; ".zdebug_ranges";
          ".zdebug_pubtypes"; ".zdebug_pubnames"; ".eh_frame"].
  cbn [_debug_sections_loop].
  rewrite (_debug_section_plain self relocate ".eh_frame") by reflexivity.
  rewrite !_debug_section_compressed by reflexivity.
  run_slots.
  unfold dict_get. simplify_map_eq. reflexivity.
Qed.

End DebugInfo.

Example __init___compressed_module :
  __init__ Py2 (open_file compressed_module) = Ok compressed_file.
Proof. vm_compute. reflexivity. Qed.

Example get_dwarf_info_compressed_file :
  @get_dwarf_info page_4096 stored_zlib no_relocations compressed_file false
  = Ok (bundle (Some {| DebugSectionDescriptor.stream := {| buf := literal "hi"; pos := 2 |};
                        DebugSectionDescriptor.name := ".zdebug_info";
                        DebugSectionDescriptor.global_offset := 0;
                        DebugSectionDescriptor.size := 2;
                        DebugSectionDescriptor.address := 0 |})
               None None None None None None None None None
               (Some (descriptor_of ".eh_frame" (literal "frames")))).
Proof. vm_compute. reflexivity. Qed.

(** C7: in a file where no section named [.debug_info] exists but one named
    [.zdebug_info] does, [get_dwarf_info] looks every canonical debug section
    up under its compressed name ([.z] in place of the leading dot) and
    decompresses each one it finds, except [.eh_frame], which it looks up
    under its canonical name and does not decompress. *)
Theorem get_dwarf_info_compressed_naming `{Platform, Zlib, RelocationHandler}
    (self : WasmFile) (relocate : bool) :
  get_section_by_name self ".debug_info" = None →
  is_Some (get_section_by_name self ".zdebug_info") →
  get_dwarf_info self relocate = compressed_dwarf_info self relocate.
Proof.
  intros _ Hz. apply get_dwarf_info_compressed. exact Hz.
Qed.

Lemma get_dwarf_info_compressed_naming_witness :
  get_section_by_name compressed_file ".debug_info" = None
  ∧ is_Some (get_section_by_name compressed_file ".zdebug_info")
  ∧ @get_dwarf_info page_4096 stored_zlib no_relocations compressed_file false
    = @compressed_dwarf_info page_4096 stored_zlib no_relocations compressed_file false.
Proof.
  assert (H1 : get_section_by_name compressed_file ".debug_info" = None)
    by reflexivity.
  assert (H2 : is_Some (get_section_by_name compressed_file ".zdebug_info"))
    by (eexists; reflexivity).
  split; [exact H1|]. split; [exact H2|].
  exact (@get_dwarf_info_compressed_naming page_4096 stored_zlib no_relocations
           compressed_file false H1 H2).
Defined.

(** ** The minimal file *)

Lemma write_BytesIO (data : bytes) :
  write data (BytesIO []) = {| buf := data; pos := length data |}.
Proof.
  unfold write, BytesIO. simpl. rewrite drop_nil, app_nil_r. reflexivity.
Qed.

Lemma WasmSection_getitem_init (name : string) (data : bytes) :
  WasmSection.__getitem__ (WasmSection.__init__ name data) "sh_offset" = Ok 0
  ∧ WasmSection.__getitem__ (WasmSection.__init__ name data) "sh_size"
    = Ok (Z.of_nat (length data))
  ∧ WasmSection.__getitem__ (WasmSection.__init__ name data) "sh_addr" = Ok 0.
Proof.
  unfold WasmSection.__getitem__, WasmSection.__init__. simpl.
  repeat split; simplify_map_eq; reflexivity.
Qed.

(** Without relocation, a section object as [WasmSection.__init__] builds it
    is read into a descriptor of its name and data. *)
Lemma _read_dwarf_section_init `{RelocationHandler} (self : WasmFile)
    (name : string) (data : bytes) :
  _read_dwarf_section self (WasmSection.__init__ name data) false
  = Ok (descriptor_of name data).
Proof.
  unfold _read_dwarf_section.
  destruct (WasmSection_getitem_init name data) as (-> & -> & ->).
  change (WasmSection.data (WasmSection.__init__ name data)) with data.
  rewrite write_BytesIO. reflexivity.
Qed.

Lemma __init___debug_info_module (py : PyVersion) (data : bytes) :
  __init__ py (open_file (debug_info_module data))
  = Ok {| stream := {| buf := debug_info_module data;
                       pos := length (debug_info_module data) |};
          version := version_1;
          _section_name_map :=
            <[WasmSection.User := [user_payload (literal ".debug_info") data]]> ∅;
          _custom_section_name_map :=
            <[py_str py (literal ".debug_info")
              := WasmSection.__init__ (py_str py (literal ".debug_info")) data]> ∅;
          header := None;
          structs := None;
          _file_stringtable_section := None |}.
Proof.
  unfold debug_info_module. rewrite __init___module_bytes.
  - unfold chunks_map, setdefault_append. cbn [fold_left fst snd].
    rewrite lookup_empty. cbn [default app]. rewrite lookup_insert_eq. run.
    cbn [_read_custom_sections].
    rewrite custom_section_user_payload. run. reflexivity.
  - repeat constructor. simpl. unfold WasmSection.User. lia.
Qed.

(** On Python 2 the minimal file gives the bundle the specification
    describes: the [.debug_info] slot holds the payload, the others are
    [None]. *)
Lemma get_dwarf_info_debug_info_module_py2 `{Platform, Zlib, RelocationHandler}
    (data : bytes) :
  (self ← __init__ Py2 (open_file (debug_info_module data));
   get_dwarf_info self false)
  = Ok (bundle (Some (descriptor_of ".debug_info" data))
               None None None None None None None None None None).
Proof.
  rewrite __init___debug_info_module. run.
  change (py_str Py2 (literal ".debug_info")) with ".debug_info".
  rewrite get_dwarf_info_uncompressed
    by (unfold get_section_by_name; simpl; simplify_map_eq; reflexivity).
  unfold plain_dwarf_info, plain_slot, get_section_by_name. simpl.
  rewrite lookup_insert_eq. rewrite !lookup_insert_ne by done.
  rewrite lookup_empty. rewrite _read_dwarf_section_init. reflexivity.
Qed.

(** C1, on Python 3: for every payload, [__init__] accepts the minimal file
    (magic, version 01 00 00 00, one user section named [.debug_info] that
    carries the payload) and [get_dwarf_info] without relocation returns a
    bundle, but every slot of it is [None], the [.debug_info] slot too: the
    section is filed under [str] of its name bytes, which is their [repr]. *)
Theorem get_dwarf_info_debug_info_module_py3 `{Platform, Zlib, RelocationHandler}
    (data : bytes) :
  (self ← __init__ Py3 (open_file (debug_info_module data));
   get_dwarf_info self false)
  = Ok (bundle None None None None None None None None None None None).
Proof.
  rewrite __init___debug_info_module. run.
  change (py_str Py3 (literal ".debug_info")) with "b'.debug_info'".
  rewrite get_dwarf_info_uncompressed
    by (unfold get_section_by_name; simpl; simplify_map_eq; reflexivity).
  unfold plain_dwarf_info, plain_slot, get_section_by_name. simpl.
  rewrite !lookup_insert_ne by done.
  rewrite lookup_empty. reflexivity.
Qed.

(** ** Lookup by name *)

(** C8: [has_dwarf_info] returns a true value exactly when one of
    [.debug_info], [.zdebug_info], [.eh_frame] is a key of the custom section
    map, and a false value otherwise. *)
Theorem has_dwarf_info_truthy (self : WasmFile) :
  (truthy (has_dwarf_info self) = true
   ↔ ".debug_info" ∈ dom (_custom_section_name_map self)
     ∨ ".zdebug_info" ∈ dom (_custom_section_name_map self)
     ∨ ".eh_frame" ∈ dom (_custom_section_name_map self))
  ∧ (truthy (has_dwarf_info self) = false
     ↔ ¬ (".debug_info" ∈ dom (_custom_section_name_map self)
          ∨ ".zdebug_info" ∈ dom (_custom_section_name_map self)
          ∨ ".eh_frame" ∈ dom (_custom_section_name_map self))).
Proof.
  unfold has_dwarf_info, get_section_by_name, py_or.
  rewrite !elem_of_dom, !is_Some_alt.
  destruct (_custom_section_name_map self !! ".debug_info");
    destruct (_custom_section_name_map self !! ".zdebug_info");
    destruct (_custom_section_name_map self !! ".eh_frame");
    cbn [truthy]; intuition congruence.
Qed.

Lemma chunks_map_lookup (code : Z) (chunks : list (Z * bytes)) :
  ∀ d, chunks_map chunks d !! code
       = match payloads_of code chunks with
         | [] => d !! code
         | l => Some (default [] (d !! code) ++ l)
         end.
Proof.
  unfold chunks_map, payloads_of.
  induction chunks as [|[k p] chunks IH]; intros d; [reflexivity|].
  cbn [fold_left fst snd]. rewrite IH. unfold setdefault_append.
  rewrite filter_cons. cbn [fst].
  destruct (decide (k = code)) as [->|Hne].
  - rewrite !lookup_insert_eq. cbn [map snd default].
    destruct (map snd (filter (fun c => fst c = code) chunks)) as [|q l];
      destruct (d !! code); unfold default; cbn [from_option id app];
      rewrite <- ?app_assoc; reflexivity.
  - rewrite !lookup_insert_ne by done. reflexivity.
Qed.

Lemma chunks_map_lookup_nonempty (code : Z) (chunks : list (Z * bytes)) :
  payloads_of code chunks ≠ [] →
  chunks_map chunks ∅ !! code = Some (payloads_of code chunks).
Proof.
  intros Hne. rewrite chunks_map_lookup, lookup_empty.
  destruct (payloads_of code chunks); [done|reflexivity].
Qed.

(** Sections registered after a name was last used leave its entry alone. *)
Lemma _read_custom_sections_other (py : PyVersion) (name : string)
    (later : list bytes) :
  ∀ d m,
    _read_custom_sections py later d = Ok m →
    (∀ u section, u ∈ later → custom_section py u = Ok section →
                  WasmSection.name section ≠ name) →
    m !! name = d !! name.
Proof.
  induction later as [|u later IH]; intros d m Hrun Hnames.
  - injection Hrun as <-. reflexivity.
  - cbn [_read_custom_sections] in Hrun.
    destruct (custom_section py u) as [section|e] eqn:Hu; [|done].
    cbn [mbind result_bind] in Hrun.
    rewrite (IH _ _ Hrun).
    + apply lookup_insert_ne. apply (Hnames u); [left|exact Hu].
    + intros u' s' Hin. apply Hnames. right. exact Hin.
Qed.

(** The entry of a name is the section registered last under it. *)
Lemma _read_custom_sections_last (py : PyVersion) (u : bytes)
    (section : WasmSection.t) (earlier later : list bytes) :
  ∀ d m,
    _read_custom_sections py (earlier ++ u :: later) d = Ok m →
    custom_section py u = Ok section →
    (∀ u' section', u' ∈ later → custom_section py u' = Ok section' →
                    WasmSection.name section' ≠ WasmSection.name section) →
    m !! WasmSection.name section = Some section.
Proof.
  induction earlier as [|a earlier IH]; intros d m Hrun Hu Hlater.
  - cbn [app _read_custom_sections] in Hrun. rewrite Hu in Hrun.
    cbn [mbind result_bind] in Hrun.
    rewrite (_read_custom_sections_other py _ later _ _ Hrun Hlater).
    apply lookup_insert_eq.
  - cbn [app _read_custom_sections] in Hrun.
    destruct (custom_section py a) as [sa|e]; [|done].
    cbn [mbind result_bind] in Hrun. exact (IH _ _ Hrun Hu Hlater).
Qed.

(** C10: when the raw input holds two user sections that carry the same
    embedded name, and no user section after the second carries it, then
    after construction [get_section_by_name] returns, for that name, the
    section built from the second, the one latest in the file; the earlier
    one is not what the name gives. *)
Theorem get_section_by_name_last_wins (py : PyVersion) (chunks : list (Z * bytes))
    (self : WasmFile) (name data1 data2 : bytes) (l1 l2 l3 : list bytes) :
  Forall (fun c => 0 <= fst c) chunks →
  __init__ py (open_file (module_bytes chunks)) = Ok self →
  payloads_of WasmSection.User chunks
  = l1 ++ user_payload name data1 :: l2 ++ user_payload name data2 :: l3 →
  (∀ u section, u ∈ l3 → custom_section py u = Ok section →
                WasmSection.name section ≠ py_str py name) →
  get_section_by_name self (py_str py name)
  = Some (WasmSection.__init__ (py_str py name) data2).
Proof.
  intros Hcodes Hinit Hus Hlater.
  rewrite __init___module_bytes in Hinit by exact Hcodes.
  rewrite chunks_map_lookup_nonempty in Hinit
    by (rewrite Hus; destruct l1; done).
  rewrite Hus in Hinit. cbn [mbind result_bind] in Hinit.
  destruct (_read_custom_sections py
              (l1 ++ user_payload name data1 :: l2 ++ user_payload name data2 :: l3) ∅)
    as [m|e] eqn:Hrun; [|done].
  injection Hinit as <-. unfold get_section_by_name. cbn [_custom_section_name_map].
  replace (l1 ++ user_payload name data1 :: l2 ++ user_payload name data2 :: l3)
    with ((l1 ++ user_payload name data1 :: l2) ++ user_payload name data2 :: l3)
    in Hrun by (rewrite <- app_assoc; reflexivity).
  exact (_read_custom_sections_last py _ (WasmSection.__init__ (py_str py name) data2)
           _ l3 _ _ Hrun (custom_section_user_payload py name data2) Hlater).
Qed.

Lemma get_section_by_name_last_wins_witness :
  Forall (fun c : Z * bytes => 0 <= fst c)
    [(WasmSection.User, user_payload (literal "dup") (literal "first"));
     (WasmSection.User, user_payload (literal "other") (literal "x"));
     (WasmSection.User, user_payload (literal "dup") (literal "second"))]
  ∧ __init__ Py2 (open_file duplicate_module) = Ok duplicate_file
  ∧ get_section_by_name duplicate_file "dup"
    = Some (WasmSection.__init__ "dup" (literal "second")).
Proof.
  assert (Hcodes : Forall (fun c : Z * bytes => 0 <= fst c)
            [(WasmSection.User, user_payload (literal "dup") (literal "first"));
             (WasmSection.User, user_payload (literal "other") (literal "x"));
             (WasmSection.User, user_payload (literal "dup") (literal "second"))])
    by (repeat constructor; vm_compute; discriminate).
  assert (Hinit : __init__ Py2 (open_file duplicate_module) = Ok duplicate_file)
    by (vm_compute; reflexivity).
  split; [exact Hcodes|]. split; [exact Hinit|].
  apply (get_section_by_name_last_wins Py2 _ duplicate_file
           (literal "dup") (literal "first") (literal "second")
           [] [user_payload (literal "other") (literal "x")] []
           Hcodes Hinit eq_refl).
  intros u section Hin. apply not_elem_of_nil in Hin. destruct Hin.
Defined.

(** ** Short payloads *)




(** ** Address translation *)

Lemma covers_contains_range (start size : Z) (seg : ELFSegment) :
  0 < size →
  covers start size seg
  ↔ p_type (segment_header seg) = "PT_LOAD"
    ∧ contains_range (segment_header seg) start size.
Proof.
  intros Hsize. unfold covers, contains_range. split.
  - intros (Hload & Hlo & Hhi). split; [exact Hload|]. intros a Ha. lia.
  - intros (Hload & Hin). split; [exact Hload|].
    pose proof (Hin start ltac:(lia)).
    pose proof (Hin (start + size - 1) ltac:(lia)). lia.
Qed.

Lemma address_offsets_body_covers (start size : Z) (segs : list ELFSegment) :
  concat (map (address_offsets_body start (start + size)) segs)
  = map (offset_in start) (filter (covers start size) segs).
Proof.
  induction segs as [|seg segs IH]; [reflexivity|].
  cbn [map concat]. rewrite filter_cons, IH.
  unfold address_offsets_body at 1.
  destruct (decide (covers start size seg)) as [(Hload & Hlo & Hhi)|Hout].
  - rewrite decide_False by (intros Hne; exact (Hne Hload)).
    rewrite decide_True by lia. reflexivity.
  - destruct (decide (p_type (segment_header seg) ≠ "PT_LOAD")) as [Hne|Heq];
      [reflexivity|].
    apply dec_stable in Heq.
    rewrite decide_False; [reflexivity|].
    intros [? ?]. apply Hout. unfold covers. split; [exact Heq|lia].
Qed.

Lemma filter_none {A} (P : A → Prop) `{∀ x, Decision (P x)} (l : list A) :
  (∀ x, x ∈ l → ¬ P x) → filter P l = [].
Proof.
  induction l as [|x l IH]; intros Hall; [reflexivity|].
  rewrite filter_cons, decide_False by (apply Hall; left).
  apply IH. intros y Hy. apply Hall. right. exact Hy.
Qed.

Example address_offsets_segmented_file :
  address_offsets segmented_file 4240 4 = {| yields := [656; 784]; raised := None |}.
Proof. vm_compute. reflexivity. Qed.

(** C9: for every start address and positive size, [address_offsets] yields,
    in the order in which [iter_segments] yields the segments, exactly
    [start - p_vaddr + p_offset] for each segment of type load whose range
    [p_vaddr, p_vaddr + p_filesz) entirely contains [start, start + size);
    so it yields nothing when no load segment contains the range, and every
    offset it yields comes from a load segment that does, never from a
    segment of another type. *)
Theorem address_offsets_load_segments (self : WasmFile) (start size : Z) :
  0 < size →
  (∀ seg, covers start size seg
          ↔ p_type (segment_header seg) = "PT_LOAD"
            ∧ contains_range (segment_header seg) start size)
  ∧ yields (address_offsets self start size)
    = map (offset_in start) (filter (covers start size) (yields (iter_segments self)))
  ∧ ((∀ seg, seg ∈ yields (iter_segments self) →
             p_type (segment_header seg) = "PT_LOAD" →
             ¬ contains_range (segment_header seg) start size) →
     yields (address_offsets self start size) = [])
  ∧ (∀ offset, offset ∈ yields (address_offsets self start size) →
       ∃ seg, seg ∈ yields (iter_segments self)
              ∧ p_type (segment_header seg) = "PT_LOAD"
              ∧ contains_range (segment_header seg) start size
              ∧ offset = offset_in start seg).
Proof.
  intros Hsize.
  assert (Hyields : yields (address_offsets self start size)
                    = map (offset_in start)
                        (filter (covers start size) (yields (iter_segments self))))
    by (unfold address_offsets; cbn [yields]; apply address_offsets_body_covers).
  split; [intros seg; apply covers_contains_range; exact Hsize|].
  split; [exact Hyields|]. split.
  - intros Hnone. rewrite Hyields.
    rewrite filter_none; [reflexivity|]. intros seg Hin Hcov.
    apply (covers_contains_range _ _ _ Hsize) in Hcov as [Hload Hcon].
    exact (Hnone seg Hin Hload Hcon).
  - intros offset Hin. rewrite Hyields in Hin.
    apply list_elem_of_In, in_map_iff in Hin as (seg & <- & Hseg).
    apply list_elem_of_In, list_elem_of_filter in Hseg as [Hcov Hseg].
    apply (covers_contains_range _ _ _ Hsize) in Hcov as [Hload Hcon].
    exists seg. done.
Qed.

Lemma address_offsets_load_segments_witness :
  0 < 4
  ∧ yields (address_offsets segmented_file 4240 4)
    = map (offset_in 4240)
        (filter (covers 4240 4) (yields (iter_segments segmented_file))).
Proof.
  assert (Hsize : 0 < 4) by reflexivity.
  split; [exact Hsize|].
  exact (proj1 (proj2 (address_offsets_load_segments segmented_file 4240 4 Hsize))).
Defined.

(** ** What a constructed object can do *)

(** [__init__] assigns neither [header] nor [structs] nor
    [_file_stringtable_section]. *)
Lemma __init___attributes (py : PyVersion) (stream0 : Stream) (self : WasmFile) :
  __init__ py stream0 = Ok self →
  header self = None ∧ structs self = None ∧ _file_stringtable_section self = None.
Proof.
  unfold __init__. intros Hinit.
  destruct (_identify_file stream0) as [[v s]|e]; [|done].
  cbn [mbind result_bind] in Hinit.
  destruct (_read_sections py s) as [[[m c] s']|e]; [|done].
  injection Hinit as <-. done.
Qed.

Lemma custom_section_built (py : PyVersion) (u : bytes) (section : WasmSection.t) :
  custom_section py u = Ok section →
  ∃ data, section = WasmSection.__init__ (WasmSection.name section) data.
Proof.
  unfold custom_section. intros Hu.
  destruct (read_WasmString py (BytesIO u)) as [[name s]|e]; [|done].
  cbn [mbind result_bind] in Hu.
  destruct (read (Z.of_nat (length u) - tell s) s) as [data s'].
  injection Hu as <-. exists data. reflexivity.
Qed.

Lemma _read_custom_sections_built (py : PyVersion) (us : list bytes) :
  ∀ d m, built_by_init d → _read_custom_sections py us d = Ok m → built_by_init m.
Proof.
  induction us as [|u us IH]; intros d m Hd Hrun.
  - injection Hrun as <-. exact Hd.
  - cbn [_read_custom_sections] in Hrun.
    destruct (custom_section py u) as [section|e] eqn:Hu; [|done].
    cbn [mbind result_bind] in Hrun.
    refine (IH _ _ _ Hrun).
    intros name s Hlook.
    destruct (decide (WasmSection.name section = name)) as [<-|Hne].
    + rewrite lookup_insert_eq in Hlook. injection Hlook as <-.
      exact (custom_section_built py u section Hu).
    + rewrite lookup_insert_ne in Hlook by done. exact (Hd _ _ Hlook).
Qed.

Lemma __init___built (py : PyVersion) (stream0 : Stream) (self : WasmFile) :
  __init__ py stream0 = Ok self → built_by_init (_custom_section_name_map self).
Proof.
  unfold __init__, _read_sections. intros Hinit.
  destruct (_identify_file stream0) as [[v s]|e]; [|done].
  cbn [mbind result_bind] in Hinit.
  destruct (_read_sections_loop (length (remaining s)) (st_size s) ∅ s)
    as [[m s']|e]; [|done].
  cbn [mbind result_bind] in Hinit.
  destruct (m !! WasmSection.User) as [us|]; [|done].
  cbn [mbind result_bind] in Hinit.
  destruct (_read_custom_sections py us ∅) as [c|e] eqn:Hc; [|done].
  injection Hinit as <-. cbn [_custom_section_name_map].
  apply (_read_custom_sections_built py us ∅ c); [|exact Hc].
  intros name section Hlook. rewrite lookup_empty in Hlook. done.
Qed.

(** Without relocation a slot of a constructed object is always filled or
    left empty, never an error. *)
Lemma plain_slot_built `{RelocationHandler} (self : WasmFile) (name : string) :
  built_by_init (_custom_section_name_map self) →
  ∃ slot, plain_slot self false name = Ok slot.
Proof.
  intros Hbuilt. unfold plain_slot, get_section_by_name.
  destruct (_custom_section_name_map self !! name) as [section|] eqn:Hlook;
    [|by eexists].
  destruct (Hbuilt _ _ Hlook) as [data ->].
  rewrite _read_dwarf_section_init. by eexists.
Qed.

Lemma plain_dwarf_info_built `{RelocationHandler} (self : WasmFile) :
  built_by_init (_custom_section_name_map self) →
  ∃ info, plain_dwarf_info self false = Ok info.
Proof.
  intros Hbuilt. unfold plain_dwarf_info.
  repeat match goal with
         | |- context [plain_slot self false ?n] =>
             let slot := fresh "slot" in
             destruct (plain_slot_built self n Hbuilt) as [slot ->]; run
         end.
  by eexists.
Qed.

(** C2, as the code has it: on every object [__init__] returns,
    [num_sections()], [get_section(n)], [num_segments()] and [get_segment(n)]
    raise on every call, because [header] and [structs] were never assigned;
    [iter_sections()] and [iter_segments()] are generator functions, so the
    call returns a generator, and that generator raises when it is first
    advanced, before it yields anything (and so does [address_offsets]).
    The operations by name do not read those attributes:
    [get_machine_arch] returns ['wasm32'], and [get_dwarf_info] without
    relocation returns a bundle whenever no [.zdebug_info] section asks for
    decompression. *)
Theorem index_accessors_raise `{Platform, Zlib, RelocationHandler}
    (py : PyVersion) (stream0 : Stream) (self : WasmFile) :
  __init__ py stream0 = Ok self →
  num_sections self = Raise (AttributeError "header")
  ∧ (∀ depth n, get_section depth self n = Raise (AttributeError "structs"))
  ∧ num_segments self = Raise (AttributeError "header")
  ∧ (∀ n, get_segment self n = Raise (AttributeError "structs"))
  ∧ (∀ depth, call_generator (iter_sections depth self)
              = Ok {| yields := []; raised := Some (AttributeError "header") |})
  ∧ call_generator (iter_segments self)
    = Ok {| yields := []; raised := Some (AttributeError "header") |}
  ∧ (∀ start size, address_offsets self start size
                   = {| yields := []; raised := Some (AttributeError "header") |})
  ∧ get_machine_arch self = "wasm32"
  ∧ (get_section_by_name self ".zdebug_info" = None →
     ∃ info, get_dwarf_info self false = Ok info).
Proof.
  intros Hinit.
  destruct (__init___attributes py stream0 self Hinit) as (Hh & Hs & _).
  assert (Hns : num_sections self = Raise (AttributeError "header"))
    by (unfold num_sections, __getitem__; rewrite Hh; reflexivity).
  assert (Hnp : num_segments self = Raise (AttributeError "header"))
    by (unfold num_segments, __getitem__; rewrite Hh; reflexivity).
  assert (Hseg : iter_segments self
                 = {| yields := []; raised := Some (AttributeError "header") |})
    by (unfold iter_segments; rewrite Hnp; reflexivity).
  repeat split.
  - exact Hns.
  - intros depth n.
    destruct depth; cbn [get_section]; unfold _get_section_header, get_structs;
      rewrite Hs; reflexivity.
  - exact Hnp.
  - intros n. unfold get_segment, _get_segment_header, get_structs.
    rewrite Hs. reflexivity.
  - intros depth. unfold call_generator, iter_sections. rewrite Hns. reflexivity.
  - unfold call_generator. rewrite Hseg. reflexivity.
  - intros start size. unfold address_offsets. rewrite Hseg. reflexivity.
  - intros Hz. rewrite get_dwarf_info_uncompressed by exact Hz.
    apply plain_dwarf_info_built. exact (__init___built py stream0 self Hinit).
Qed.

Example __init___minimal_file :
  __init__ Py3 (open_file (debug_info_module [])) = Ok minimal_file.
Proof. vm_compute. reflexivity. Qed.

Lemma index_accessors_raise_witness :
  __init__ Py3 (open_file (debug_info_module [])) = Ok minimal_file
  ∧ num_sections minimal_file = Raise (AttributeError "header")
  ∧ (∀ depth n, get_section depth minimal_file n = Raise (AttributeError "structs")).
Proof.
  assert (Hinit : __init__ Py3 (open_file (debug_info_module [])) = Ok minimal_file)
    by (vm_compute; reflexivity).
  split; [exact Hinit|].
  pose proof (@index_accessors_raise page_4096 stored_zlib no_relocations
                Py3 _ minimal_file Hinit) as (H1 & H2 & _).
  split; [exact H1|exact H2].
Defined.

(** C2 fails on the code for the two generator functions: on the object
    built from the minimal file, the calls [iter_sections()] and
    [iter_segments()] return; nothing is raised until the generator is
    advanced. *)
Lemma iter_sections_call_returns :
  __init__ Py3 (open_file (debug_info_module [])) = Ok minimal_file
  ∧ ¬ raises (call_generator (iter_sections 1000 minimal_file))
  ∧ ¬ raises (call_generator (iter_segments minimal_file)).
Proof.
  split; [vm_compute; reflexivity|].
  split; intros [e He]; discriminate He.
Qed.

(** ** Decompression *)

Lemma int_from_bytes_big_snoc (l : bytes) (c : ascii) :
  int_from_bytes_big (l ++ [c]) = int_from_bytes_big l * 256 + ord c.
Proof. unfold int_from_bytes_big. rewrite fold_left_app. reflexivity. Qed.

Lemma length_int_to_bytes_big (k : nat) : ∀ n, length (int_to_bytes_big k n) = k.
Proof.
  induction k as [|k IH]; intros n; [reflexivity|].
  cbn [int_to_bytes_big]. rewrite length_app, IH. simpl. lia.
Qed.

Lemma int_from_to_bytes_big (k : nat) :
  ∀ n, 0 <= n < 256 ^ Z.of_nat k →
       int_from_bytes_big (int_to_bytes_big k n) = n.
Proof.
  induction k as [|k IH]; intros n Hn.
  - simpl in Hn. unfold int_from_bytes_big. simpl. lia.
  - cbn [int_to_bytes_big]. rewrite int_from_bytes_big_snoc.
    pose proof (Z.mod_pos_bound n 256 ltac:(lia)).
    rewrite ord_chr by lia.
    rewrite IH.
    + pose proof (Z.div_mod n 256 ltac:(lia)). lia.
    + rewrite Nat2Z.inj_succ, Z.pow_succ_r in Hn by lia.
      split; [apply Z.div_pos; lia|].
      apply Z.div_lt_upper_bound; lia.
Qed.

Lemma write_end (out : bytes) (s : Stream) :
  pos s = length (buf s) →
  write out s = {| buf := buf s ++ out; pos := length (buf s ++ out) |}.
Proof.
  intros Hpos. unfold write. rewrite Hpos.
  rewrite take_ge by lia. rewrite drop_ge by lia.
  rewrite app_nil_r, length_app. reflexivity.
Qed.

Section Decompression.
Context `{Platform, Zlib}.
Hypothesis streaming : zlib_streaming.

Lemma _decompress_loop_unfold (bound : nat) (d : zstate) (s out : Stream) :
  _decompress_loop bound d s out
  = let '(chunk, s') := read PAGESIZE s in
    if decide (chunk = []) then Ok (d, s', out)
    else match bound with
         | O => Raise LoopBound
         | S bound =>
             '(o, d') ← decompress d chunk;
             _decompress_loop bound d' s' (write o out)
         end.
Proof. destruct bound; reflexivity. Qed.

(** The loop feeds the decompression object everything that remains in the
    stream and appends what it returns. *)
Lemma _decompress_loop_streaming (bound : nat) :
  ∀ d s out,
    (length (remaining s) ≤ bound)%nat →
    pos out = length (buf out) →
    _decompress_loop bound d s out
    = ('(o, d') ← decompress d (remaining s);
       mret (d', {| buf := buf s; pos := pos s + length (remaining s) |},
             {| buf := buf out ++ o; pos := length (buf out ++ o) |})).
Proof.
  destruct streaming as [Hnil Happ]. pose proof PAGESIZE_pos as Hpage.
  induction bound as [|bound IH]; intros d s out Hbound Hout;
    rewrite _decompress_loop_unfold; unfold read;
    rewrite (decide_False (P := PAGESIZE < 0)) by lia.
  - assert (Hrem : remaining s = []) by (apply nil_length_inv; lia).
    rewrite Hrem, take_nil, decide_True by reflexivity.
    rewrite Hnil. run. rewrite app_nil_r, <- Hout.
    destruct out; reflexivity.
  - destruct (decide (take (Z.to_nat PAGESIZE) (remaining s) = [])) as [Hnil'|Hne].
    + assert (Hrem : remaining s = []).
      { destruct (remaining s) as [|c l]; [reflexivity|].
        destruct (Z.to_nat PAGESIZE) eqn:Hp; [lia|]. simpl in Hnil'. done. }
      rewrite Hrem, take_nil, Hnil. run. rewrite app_nil_r, <- Hout.
      destruct out; reflexivity.
    + set (chunk := take (Z.to_nat PAGESIZE) (remaining s)) in *.
      set (rest := drop (Z.to_nat PAGESIZE) (remaining s)).
      assert (Hsplit : remaining s = chunk ++ rest)
        by (symmetry; apply take_drop).
      rewrite Hsplit at 1. rewrite Happ.
      destruct (decompress d chunk) as [[o1 d1]|e]; run; [|reflexivity].
      pose proof (remaining_advance s chunk rest Hsplit) as Hrem'.
      assert (Hlen : length (remaining s) = (length chunk + length rest)%nat)
        by (rewrite Hsplit at 1; apply length_app).
      assert (Hchunk : (0 < length chunk)%nat)
        by (destruct chunk; [done|simpl; lia]).
      rewrite IH.
      * rewrite Hrem'.
        destruct (decompress d1 rest) as [[o2 d2]|e]; run; [|reflexivity].
        rewrite write_end by exact Hout. simpl.
        rewrite <- !app_assoc, Hlen, Nat.add_assoc. reflexivity.
      * rewrite Hrem'. lia.
      * rewrite write_end by exact Hout. reflexivity.
Qed.

(** What [_decompress_dwarf_section] computes, check by check. *)
Lemma _decompress_dwarf_section_eq (section : DebugSectionDescriptor.t) :
  let data := buf (DebugSectionDescriptor.stream section) in
  _decompress_dwarf_section section
  = if decide (DebugSectionDescriptor.size section > 12) then
      if decide (take 4 data = ZLIB) then
        uncompressed_size ← struct_unpack_Q_big (take 8 (drop 4 data));
        out ← zlib_inflate (drop 12 data);
        if decide (uncompressed_size = Z.of_nat (length out))
        then Ok (decompressed section out)
        else Raise (AssertionError Wrong_uncompressed_size)
      else Raise (AssertionError Invalid_compression_type)
    else Raise (AssertionError Unsupported_compression_format).
Proof.
  intros data. unfold _decompress_dwarf_section.
  destruct (decide (DebugSectionDescriptor.size section > 12)) as [Hsize|];
    [|reflexivity].
  unfold read at 1. rewrite (decide_False (P := 4 < 0)) by lia.
  change (remaining (seek0 (DebugSectionDescriptor.stream section))) with data.
  change (Z.to_nat 4) with 4%nat.
  destruct (decide (take 4 data = ZLIB)) as [Htag|]; [|reflexivity].
  unfold read at 1. rewrite (decide_False (P := 8 < 0)) by lia.
  change (Z.to_nat 8) with 8%nat.
  set (s4 := {| buf := buf (seek0 (DebugSectionDescriptor.stream section));
                pos := pos (seek0 (DebugSectionDescriptor.stream section))
                       + length (take 4 data) |}).
  assert (Hrem4 : remaining s4 = drop 4 data).
  { unfold remaining, s4. simpl. fold data.
    destruct (decide (4 ≤ length data)%nat).
    - rewrite length_take_le by lia. reflexivity.
    - rewrite length_take, !drop_ge by lia. reflexivity. }
  rewrite Hrem4.
  destruct (struct_unpack_Q_big (take 8 (drop 4 data))) as [n|e] eqn:Hn; run;
    [|reflexivity].
  set (s12 := {| buf := buf s4; pos := pos s4 + length (take 8 (drop 4 data)) |}).
  assert (Hrem12 : remaining s12 = drop 12 data).
  { unfold remaining, s12, s4. simpl. fold data.
    unfold struct_unpack_Q_big in Hn.
    destruct (decide (length (take 8 (drop 4 data)) = 8%nat)) as [H8|]; [|done].
    rewrite H8. rewrite length_take, length_drop in H8.
    rewrite length_take_le by lia. reflexivity. }
  rewrite _decompress_loop_streaming by (reflexivity || lia).
  rewrite Hrem12. unfold zlib_inflate.
  destruct (decompress decompressobj (drop 12 data)) as [[o d]|e]; run;
    [|reflexivity].
  destruct (flush d) as [o'|e]; run; [|reflexivity].
  rewrite write_end by reflexivity. cbn [buf BytesIO app].
  unfold tell, seek_end. cbn [buf pos].
  destruct (decide (n = Z.of_nat (length (o ++ o')))); reflexivity.
Qed.

End Decompression.

Lemma stored_zlib_streaming : @zlib_streaming stored_zlib.
Proof.
  split; [reflexivity|].
  intros st a. revert st.
  induction a as [|c a IH]; intros st chunk; cbn [app].
  - change (decompress st []) with (@Ok (bytes * stored_state) ([], st)). run.
    destruct (decompress st chunk) as [[o d]|e]; reflexivity.
  - change (@decompress stored_zlib) with stored_decompress in *.
    cbn [stored_decompress].
    destruct (stored_step st c) as [[o1 st1]|e]; run; [|reflexivity].
    rewrite IH.
    destruct (stored_decompress st1 a) as [[o2 st2]|e]; run; [|reflexivity].
    destruct (stored_decompress st2 chunk) as [[o3 st3]|e]; run; [|reflexivity].
    rewrite app_assoc. reflexivity.
Qed.

Example zlib_inflate_zlib_hi : @zlib_inflate stored_zlib zlib_hi = Ok (literal "hi").
Proof. reflexivity. Qed.

(** C3: for every payload, decompressing a descriptor whose declared size
    exceeds 12 and whose stream is the tag [ZLIB], the 8-byte big-endian
    length of the payload and a zlib-compressed encoding of the payload
    returns a descriptor whose stream holds exactly the payload, whose size
    is the length of the payload, and whose name, global offset and address
    are those of the input. *)
Theorem decompress_dwarf_section_ZLIB `{Platform, Zlib}
    (section : DebugSectionDescriptor.t) (payload z : bytes) :
  zlib_streaming →
  DebugSectionDescriptor.size section > 12 →
  buf (DebugSectionDescriptor.stream section)
  = ZLIB ++ int_to_bytes_big 8 (Z.of_nat (length payload)) ++ z →
  Z.of_nat (length payload) < 2 ^ 64 →
  zlib_inflate z = Ok payload →
  _decompress_dwarf_section section
  = Ok {| DebugSectionDescriptor.stream := {| buf := payload; pos := length payload |};
          DebugSectionDescriptor.name := DebugSectionDescriptor.name section;
          DebugSectionDescriptor.global_offset :=
            DebugSectionDescriptor.global_offset section;
          DebugSectionDescriptor.size := Z.of_nat (length payload);
          DebugSectionDescriptor.address := DebugSectionDescriptor.address section |}.
Proof.
  intros Hstreaming Hsize Hbuf Hlen Hz.
  rewrite _decompress_dwarf_section_eq by exact Hstreaming. cbv zeta.
  rewrite Hbuf, decide_True by lia.
  change (take 4 (ZLIB ++ ?l)) with ZLIB.
  rewrite decide_True by reflexivity.
  change (drop 4 (ZLIB ++ ?l)) with l.
  pose proof (length_int_to_bytes_big 8 (Z.of_nat (length payload))) as Hl8.
  replace (take 8 (int_to_bytes_big 8 (Z.of_nat (length payload)) ++ z))
    with (int_to_bytes_big 8 (Z.of_nat (length payload)))
    by (rewrite take_app_length' by (symmetry; exact Hl8); reflexivity).
  replace (drop 12 (ZLIB ++ int_to_bytes_big 8 (Z.of_nat (length payload)) ++ z))
    with z.
  2:{ change (drop 12 (ZLIB ++ ?l)) with (drop 8 l).
      rewrite drop_app_length' by (symmetry; exact Hl8). reflexivity. }
  unfold struct_unpack_Q_big. rewrite decide_True by exact Hl8.
  rewrite int_from_to_bytes_big by (change (256 ^ Z.of_nat 8) with (2 ^ 64); lia).
  run. rewrite Hz. run. rewrite decide_True by reflexivity. reflexivity.
Qed.

Lemma decompress_dwarf_section_ZLIB_witness :
  (DebugSectionDescriptor.size hi_section > 12
   ∧ Z.of_nat (length (literal "hi")) < 2 ^ 64
   ∧ @zlib_inflate stored_zlib zlib_hi = Ok (literal "hi"))
  ∧ @_decompress_dwarf_section page_4096 stored_zlib hi_section
    = Ok {| DebugSectionDescriptor.stream := {| buf := literal "hi"; pos := 2 |};
            DebugSectionDescriptor.name := ".zdebug_info";
            DebugSectionDescriptor.global_offset := 0;
            DebugSectionDescriptor.size := 2;
            DebugSectionDescriptor.address := 0 |}.
Proof.
  assert (Hsize : DebugSectionDescriptor.size hi_section > 12) by reflexivity.
  assert (Hlen : Z.of_nat (length (literal "hi")) < 2 ^ 64) by reflexivity.
  assert (Hz : @zlib_inflate stored_zlib zlib_hi = Ok (literal "hi")) by reflexivity.
  split; [split; [exact Hsize|split; [exact Hlen|exact Hz]]|].
  exact (@decompress_dwarf_section_ZLIB page_4096 stored_zlib hi_section
           (literal "hi") zlib_hi stored_zlib_streaming Hsize eq_refl Hlen Hz).
Defined.

(** C4, as the code has it: decompression raises, returning no descriptor,
    in exactly these cases: the declared size is not greater than 12; the
    first four bytes of the stream are not [ZLIB]; fewer than eight bytes
    follow the tag; the zlib decompression object raises on the bytes after
    them; or the number of inflated bytes differs from the declared
    uncompressed size.  When it returns, the descriptor holds all the
    inflated bytes, as many as declared. *)
Theorem decompress_dwarf_section_raises `{Platform, Zlib}
    (section : DebugSectionDescriptor.t) :
  zlib_streaming →
  (raises (_decompress_dwarf_section section)
   ↔ ¬ DebugSectionDescriptor.size section > 12
     ∨ take 4 (buf (DebugSectionDescriptor.stream section)) ≠ ZLIB
     ∨ length (take 8 (drop 4 (buf (DebugSectionDescriptor.stream section)))) ≠ 8%nat
     ∨ raises (zlib_inflate (drop 12 (buf (DebugSectionDescriptor.stream section))))
     ∨ ∃ out, zlib_inflate (drop 12 (buf (DebugSectionDescriptor.stream section)))
              = Ok out
              ∧ Z.of_nat (length out)
                ≠ int_from_bytes_big
                    (take 8 (drop 4 (buf (DebugSectionDescriptor.stream section)))))
  ∧ (∀ section',
       _decompress_dwarf_section section = Ok section' →
       ∃ out, zlib_inflate (drop 12 (buf (DebugSectionDescriptor.stream section)))
              = Ok out
              ∧ section' = decompressed section out
              ∧ Z.of_nat (length out)
                = int_from_bytes_big
                    (take 8 (drop 4 (buf (DebugSectionDescriptor.stream section))))).
Proof.
  intros Hstreaming.
  rewrite _decompress_dwarf_section_eq by exact Hstreaming. cbv zeta.
  set (data := buf (DebugSectionDescriptor.stream section)).
  unfold struct_unpack_Q_big.
  destruct (decide (DebugSectionDescriptor.size section > 12)) as [Hsize|Hsize].
  2:{ split; [|done]. split; [tauto|]. intros _. by eexists. }
  destruct (decide (take 4 data = ZLIB)) as [Htag|Htag].
  2:{ split; [|done]. split; [tauto|]. intros _. by eexists. }
  destruct (decide (length (take 8 (drop 4 data)) = 8%nat)) as [H8|H8]; run.
  2:{ split; [|done]. split; [tauto|]. intros _. by eexists. }
  destruct (zlib_inflate (drop 12 data)) as [out|e]; run.
  2:{ split; [|done]. split; [intros _|intros _; by eexists].
      right. right. right. left. by eexists. }
  destruct (decide (int_from_bytes_big (take 8 (drop 4 data))
                    = Z.of_nat (length out))) as [Heq|Hne].
  - split.
    + split.
      * intros [e He]. done.
      * intros [?|[?|[?|[[e He]|(out' & [= <-] & Hne)]]]]; done.
    + intros section' [= <-]. exists out. done.
  - split; [|done]. split; [intros _|intros _; by eexists].
    right. right. right. right. exists out. split; [reflexivity|]. congruence.
Qed.

Lemma decompress_dwarf_section_raises_witness :
  raises (@_decompress_dwarf_section page_4096 stored_zlib garbage_section)
  ↔ ¬ DebugSectionDescriptor.size garbage_section > 12
    ∨ take 4 (buf (DebugSectionDescriptor.stream garbage_section)) ≠ ZLIB
    ∨ length (take 8 (drop 4 (buf (DebugSectionDescriptor.stream garbage_section))))
      ≠ 8%nat
    ∨ raises (@zlib_inflate stored_zlib
                (drop 12 (buf (DebugSectionDescriptor.stream garbage_section))))
    ∨ ∃ out, @zlib_inflate stored_zlib
               (drop 12 (buf (DebugSectionDescriptor.stream garbage_section)))
             = Ok out
             ∧ Z.of_nat (length out)
               ≠ int_from_bytes_big
                   (take 8 (drop 4 (buf (DebugSectionDescriptor.stream garbage_section)))).
Proof.
  exact (proj1 (@decompress_dwarf_section_raises page_4096 stored_zlib
                  garbage_section stored_zlib_streaming)).
Defined.

(** C4 fails on the code: the envelope of [garbage_section] is in order
    (its declared size 14 exceeds 12, its tag is [ZLIB], its eight size bytes
    declare 0 uncompressed bytes) and no byte is ever inflated, so none of the
    three cases holds; yet decompression raises, because the decompression
    object rejects the two bytes that follow. *)
Lemma garbage_section_raises :
  @_decompress_dwarf_section page_4096 stored_zlib garbage_section = Raise zlib_error
  ∧ DebugSectionDescriptor.size garbage_section > 12
  ∧ take 4 (buf (DebugSectionDescriptor.stream garbage_section)) = ZLIB
  ∧ int_from_bytes_big (take 8 (drop 4 (buf (DebugSectionDescriptor.stream garbage_section))))
    = 0
  ∧ @decompress stored_zlib decompressobj
      (drop 12 (buf (DebugSectionDescriptor.stream garbage_section)))
    = Raise zlib_error.
Proof. repeat split; vm_compute; reflexivity. Qed.

(** A descriptor whose declared size overstates its stream fails in
    [struct.unpack]. *)
Example short_envelope_raises :
  @_decompress_dwarf_section page_4096 stored_zlib
    {| DebugSectionDescriptor.stream := BytesIO (ZLIB ++ [chr 1; chr 2; chr 3]);
       DebugSectionDescriptor.name := ".zdebug_info";
       DebugSectionDescriptor.global_offset := 0;
       DebugSectionDescriptor.size := 13;
       DebugSectionDescriptor.address := 0 |}
  = Raise struct_error.
Proof. vm_compute. reflexivity. Qed.

(** * Further properties of the module *)

(** ** Construction *)

Lemma _identify_file_eq (s : Stream) :
  _identify_file s
  = if decide (take 4 (buf s) = magic) then
      Ok (take 4 (drop 4 (buf s)),
          {| buf := buf s; pos := 4 + length (take 4 (drop 4 (buf s))) |})
    else Raise ELFError.
Proof.
  unfold _identify_file. unfold read at 1.
  rewrite (decide_False (P := 4 < 0)) by lia.
  change (remaining (seek0 s)) with (buf s). change (Z.to_nat 4) with 4%nat.
  destruct (decide (take 4 (buf s) = magic)) as [Hm|Hm].
  - rewrite bool_decide_eq_true_2 by exact Hm. run.
    unfold read. rewrite (decide_False (P := 4 < 0)) by lia.
    change (Z.to_nat 4) with 4%nat. unfold remaining. cbn [buf pos seek0].
    rewrite Hm. reflexivity.
  - rewrite bool_decide_eq_false_2 by exact Hm. reflexivity.
Qed.

(** How the walk ends: at the end of the stream, or on the [TypeError] of a
    varint cut short. *)
Lemma _read_sections_loop_outcome (bound : nat) :
  ∀ d s,
    (pos s ≤ length (buf s))%nat →
    (length (remaining s) ≤ bound)%nat →
    match _read_sections_loop bound (st_size s) d s with
    | Ok (_, s') => buf s' = buf s ∧ pos s' = length (buf s)
    | Raise e => e = TypeError
    end.
Proof.
  induction bound as [|bound IH]; intros d s Hpos Hbound.
  - simpl. unfold remaining in Hbound. rewrite length_drop in Hbound.
    rewrite decide_False by (unfold tell, st_size; lia). split; [done|lia].
  - rewrite _read_sections_loop_S.
    destruct (decide (tell s < st_size s)) as [Hlt|Hge].
    2:{ unfold tell, st_size in Hge. split; [done|lia]. }
    destruct (read_ULEB128 s) as [[code s1]|e] eqn:H1; run.
    2:{ exact (read_ULEB128_raises _ _ H1). }
    apply read_ULEB128_inv in H1 as Hinv1. destruct Hinv1 as [Hb1 Hp1].
    destruct (read_ULEB128 s1) as [[size s2]|e] eqn:H2; run.
    2:{ exact (read_ULEB128_raises _ _ H2). }
    apply read_ULEB128_inv in H2 as Hinv2. destruct Hinv2 as [Hb2 Hp2].
    destruct (read size s2) as [payload s3] eqn:H3.
    assert (Hs3 : buf s3 = buf s2 ∧ (pos s2 ≤ pos s3 ≤ length (buf s2))%nat).
    { unfold read in H3. injection H3 as <- <-. simpl. split; [done|].
      assert (length (remaining s2) = (length (buf s2) - pos s2)%nat)
        by (unfold remaining; apply length_drop).
      assert (pos s2 ≤ length (buf s2))%nat by (rewrite Hb2; lia).
      destruct (decide (size < 0)); [lia|].
      rewrite length_take. lia. }
    destruct Hs3 as [Hb3 Hp3].
    assert (Hbuf : buf s3 = buf s) by (rewrite Hb3, Hb2, Hb1; reflexivity).
    replace (st_size s) with (st_size s3) by (unfold st_size; rewrite Hbuf; reflexivity).
    specialize (IH (setdefault_append code payload d) s3).
    destruct (_read_sections_loop bound (st_size s3)
                (setdefault_append code payload d) s3) as [[m s']|e].
    + rewrite <- Hbuf. apply IH.
      * rewrite Hb3. lia.
      * unfold remaining in *. rewrite length_drop in *. rewrite Hbuf. lia.
    + apply IH.
      * rewrite Hb3. lia.
      * unfold remaining in *. rewrite length_drop in *. rewrite Hbuf. lia.
Qed.



(** The stream [_read_sections] starts from, after the prologue. *)
Lemma after_prologue_pos (s : Stream) :
  take 4 (buf s) = magic →
  (4 + length (take 4 (drop 4 (buf s))) ≤ length (buf s))%nat.
Proof.
  intros Hm.
  assert (H4 : length (take 4 (buf s)) = 4%nat) by (rewrite Hm; reflexivity).
  rewrite length_take in H4. rewrite length_take, length_drop. lia.
Qed.

(** X1: [__init__] raises [ELFError] on every stream whose first four bytes
    are not the magic [\0asm], streams shorter than four bytes included,
    wherever the stream was positioned. *)
Theorem init_bad_magic (py : PyVersion) (s : Stream) :
  take 4 (buf s) ≠ magic → __init__ py s = Raise ELFError.
Proof.
  intros Hm. unfold __init__. rewrite _identify_file_eq.
  rewrite decide_False by exact Hm. reflexivity.
Qed.

Lemma init_bad_magic_witness :
  take 4 (buf {| buf := elf_prologue; pos := 3 |}) ≠ magic
  ∧ __init__ Py3 {| buf := elf_prologue; pos := 3 |} = Raise ELFError.
Proof.
  assert (Hm : take 4 (buf {| buf := elf_prologue; pos := 3 |}) ≠ magic)
    by (vm_compute; discriminate).
  split; [exact Hm|]. exact (init_bad_magic Py3 _ Hm).
Defined.



(** X3: when [__init__] returns, the stream began with the magic, [version]
    is the four bytes after it, the stream is unchanged and positioned at its
    end, and the kind map holds an entry for the user kind. *)
Theorem init_postconditions (py : PyVersion) (s : Stream) (self : WasmFile) :
  __init__ py s = Ok self →
  take 4 (buf s) = magic
  ∧ version self = take 4 (drop 4 (buf s))
  ∧ buf (stream self) = buf s
  ∧ pos (stream self) = length (buf s)
  ∧ is_Some (_section_name_map self !! WasmSection.User).
Proof.
  unfold __init__. rewrite _identify_file_eq.
  destruct (decide (take 4 (buf s) = magic)) as [Hm|Hm]; run; [|done].
  unfold _read_sections. cbv zeta.
  set (s8 := {| buf := buf s; pos := 4 + length (take 4 (drop 4 (buf s))) |}).
  pose proof (_read_sections_loop_outcome (length (remaining s8)) ∅ s8
                (after_prologue_pos s Hm) (le_n _)) as Hloop.
  destruct (_read_sections_loop (length (remaining s8)) (st_size s8) ∅ s8)
    as [[m s']|e']; run; [|done].
  destruct (m !! WasmSection.User) as [us|] eqn:Hus; run; [|done].
  destruct (_read_custom_sections py us ∅) as [c|e']; run; [|done].
  intros [= <-]. cbn [version stream _section_name_map].
  destruct Hloop as [Hb Hp]. rewrite Hus. repeat split; try done; by eexists.
Qed.

Lemma init_postconditions_witness :
  __init__ Py2 (open_file compressed_module) = Ok compressed_file
  ∧ version compressed_file = take 4 (drop 4 (buf (open_file compressed_module)))
  ∧ pos (stream compressed_file) = length (buf (open_file compressed_module)).
Proof.
  assert (H : __init__ Py2 (open_file compressed_module) = Ok compressed_file)
    by (vm_compute; reflexivity).
  split; [exact H|].
  pose proof (init_postconditions Py2 _ _ H) as (_ & Hv & _ & Hp & _).
  split; [exact Hv|exact Hp].
Defined.

(** X4: a file that is well formed but holds no user section (an empty list
    of chunks included) cannot be opened: [__init__] raises [KeyError]. *)
Theorem init_no_user_section (py : PyVersion) (chunks : list (Z * bytes)) :
  Forall (fun c => 0 <= fst c) chunks →
  payloads_of WasmSection.User chunks = [] →
  __init__ py (open_file (module_bytes chunks)) = Raise KeyError.
Proof.
  intros Hcodes Hnone. rewrite __init___module_bytes by exact Hcodes.
  rewrite chunks_map_lookup, Hnone, lookup_empty. reflexivity.
Qed.

Lemma init_no_user_section_witness :
  Forall (fun c : Z * bytes => 0 <= fst c) [(WasmSection.Code, literal "code")]
  ∧ payloads_of WasmSection.User [(WasmSection.Code, literal "code")] = []
  ∧ __init__ Py2 (open_file code_only_module) = Raise KeyError.
Proof.
  assert (Hc : Forall (fun c : Z * bytes => 0 <= fst c)
                      [(WasmSection.Code, literal "code")])
    by (repeat constructor; vm_compute; discriminate).
  assert (Hn : payloads_of WasmSection.User [(WasmSection.Code, literal "code")] = [])
    by reflexivity.
  split; [exact Hc|]. split; [exact Hn|].
  exact (init_no_user_section Py2 _ Hc Hn).
Defined.

Lemma init_section_name_map_lemma (py : PyVersion) (chunks : list (Z * bytes))
    (self : WasmFile) (code : Z) :
  Forall (fun c => 0 <= fst c) chunks →
  __init__ py (open_file (module_bytes chunks)) = Ok self →
  _section_name_map self !! code
  = match payloads_of code chunks with
    | [] => None
    | l => Some l
    end.
Proof.
  intros Hcodes Hinit. rewrite __init___module_bytes in Hinit by exact Hcodes.
  destruct (chunks_map chunks ∅ !! WasmSection.User) as [us|]; [|done].
  cbn [mbind result_bind] in Hinit.
  destruct (_read_custom_sections py us ∅) as [c|e]; [|done].
  injection Hinit as <-. cbn [_section_name_map].
  rewrite chunks_map_lookup, lookup_empty.
  destruct (payloads_of code chunks); reflexivity.
Qed.

(** X5: on a file laid out as a list of chunks, a successful [__init__]
    leaves in [_section_name_map], under each kind, the payloads of the
    chunks of that kind in file order, and no entry for a kind that does not
    occur. *)
Theorem init_section_name_map (py : PyVersion) (chunks : list (Z * bytes))
    (self : WasmFile) (code : Z) :
  Forall (fun c => 0 <= fst c) chunks →
  __init__ py (open_file (module_bytes chunks)) = Ok self →
  _section_name_map self !! code
  = match payloads_of code chunks with
    | [] => None
    | l => Some l
    end.
Proof. exact (init_section_name_map_lemma py chunks self code). Qed.

Lemma init_section_name_map_witness :
  Forall (fun c : Z * bytes => 0 <= fst c)
    [(WasmSection.User, user_payload (literal ".zdebug_info") ZLIB_hi);
     (WasmSection.Code, literal "code");
     (WasmSection.User, user_payload (literal ".eh_frame") (literal "frames"))]
  ∧ __init__ Py2 (open_file compressed_module) = Ok compressed_file
  ∧ _section_name_map compressed_file !! WasmSection.Code = Some [literal "code"]
  ∧ _section_name_map compressed_file !! WasmSection.Data = None.
Proof.
  assert (Hc : Forall (fun c : Z * bytes => 0 <= fst c)
            [(WasmSection.User, user_payload (literal ".zdebug_info") ZLIB_hi);
             (WasmSection.Code, literal "code");
             (WasmSection.User, user_payload (literal ".eh_frame") (literal "frames"))])
    by (repeat constructor; vm_compute; discriminate).
  assert (H : __init__ Py2 (open_file compressed_module) = Ok compressed_file)
    by (vm_compute; reflexivity).
  split; [exact Hc|]. split; [exact H|]. split.
  - exact (init_section_name_map Py2 _ compressed_file WasmSection.Code Hc H).
  - exact (init_section_name_map Py2 _ compressed_file WasmSection.Data Hc H).
Defined.




(** ** Varints and user sections *)

Lemma read_ULEB128_loop_value (bs : bytes) :
  ∀ ret shifts v rest,
    0 <= shifts →
    read_ULEB128_loop bs ret shifts = Ok (v, rest) →
    ∃ used w, bs = used ++ rest ∧ used ≠ []
              ∧ v = ret + w * 2 ^ shifts
              ∧ 0 <= w < 2 ^ (7 * Z.of_nat (length used)).
Proof.
  induction bs as [|c bs IH]; intros ret shifts v rest Hs H; simpl in H; [done|].
  pose proof (Z.mod_pos_bound (ord c) 128 ltac:(lia)) as Hmod.
  rewrite land_127, Z.shiftl_mul_pow2 in H by lia.
  destruct (decide (Z.land (ord c) 128 = 0)).
  - injection H as <- <-. exists [c], (ord c mod 128).
    split; [done|]. split; [done|]. split; [done|].
    change (2 ^ (7 * Z.of_nat (length [c]))) with 128. lia.
  - apply IH in H as (used & w & -> & _ & -> & Hw); [|lia].
    exists (c :: used), (ord c mod 128 + 128 * w).
    split; [done|]. split; [done|]. split.
    + rewrite Z.pow_add_r by lia. lia.
    + cbn [length]. rewrite Nat2Z.inj_succ.
      replace (7 * Z.succ (Z.of_nat (length used)))
        with (7 + 7 * Z.of_nat (length used)) by lia.
      rewrite Z.pow_add_r by lia. change (2 ^ 7) with 128. lia.
Qed.

(** X7: a varint read that returns has consumed [k >= 1] bytes of the
    stream, whose contents it leaves alone, and the value it returns lies in
    [0, 2^(7k)): the decoder has no width limit of its own, the value is
    bounded only by the number of bytes read. *)
Theorem read_ULEB128_value_bound (s s' : Stream) (v : Z) :
  read_ULEB128 s = Ok (v, s') →
  buf s' = buf s
  ∧ (pos s < pos s' ≤ length (buf s))%nat
  ∧ 0 <= v < 2 ^ (7 * Z.of_nat (pos s' - pos s)).
Proof.
  intros H. destruct (read_ULEB128_inv _ _ _ H) as [Hb Hp].
  split; [exact Hb|]. split; [exact Hp|].
  unfold read_ULEB128 in H.
  destruct (read_ULEB128_loop (remaining s) 0 0) as [[v' rest]|e] eqn:Hloop;
    simpl in H; [|done].
  injection H as -> <-. cbn [pos] in *.
  apply read_ULEB128_loop_value in Hloop as (used & w & Hrem & _ & -> & Hw); [|lia].
  assert (Hlen : length (remaining s) = length (used ++ rest))
    by (rewrite Hrem; reflexivity).
  unfold remaining in Hlen. rewrite length_drop, length_app in Hlen.
  replace (length (buf s) - length rest - pos s)%nat with (length used) by lia.
  change (2 ^ 0) with 1. lia.
Qed.

Lemma read_ULEB128_value_bound_witness :
  read_ULEB128 {| buf := truncated_module; pos := 9 |}
  = Ok (5, {| buf := truncated_module; pos := 10 |})
  ∧ 0 <= 5 < 2 ^ (7 * Z.of_nat (10 - 9)).
Proof.
  assert (H : read_ULEB128 {| buf := truncated_module; pos := 9 |}
              = Ok (5, {| buf := truncated_module; pos := 10 |})) by reflexivity.
  split; [exact H|].
  exact (proj2 (proj2 (read_ULEB128_value_bound _ _ _ H))).
Defined.

(** What a read returns is the front of what remained. *)
Lemma read_front (n : Z) (s s' : Stream) (chunk : bytes) :
  read n s = (chunk, s') →
  remaining s = chunk ++ remaining s'
  ∧ buf s' = buf s ∧ pos s' = (pos s + length chunk)%nat.
Proof.
  unfold read. intros [= <- <-]. cbn [buf pos]. split; [|done].
  set (chunk := if decide (n < 0) then remaining s
                else take (Z.to_nat n) (remaining s)).
  assert (Hdrop : remaining {| buf := buf s; pos := pos s + length chunk |}
                  = drop (length chunk) (remaining s))
    by (unfold remaining; cbn [buf pos]; rewrite drop_drop; reflexivity).
  rewrite Hdrop. subst chunk.
  destruct (decide (n < 0)).
  - rewrite drop_all, app_nil_r. reflexivity.
  - destruct (decide (Z.to_nat n ≤ length (remaining s))%nat).
    + rewrite length_take_le by lia. symmetry. apply take_drop.
    + rewrite take_ge by lia. rewrite drop_all, app_nil_r. reflexivity.
Qed.

Lemma custom_section_slices_of (py : PyVersion) (u : bytes) (section : WasmSection.t) :
  custom_section py u = Ok section →
  ∃ lead name_bytes,
    u = lead ++ name_bytes ++ WasmSection.data section
    ∧ lead ≠ []
    ∧ WasmSection.name section = py_str py name_bytes.
Proof.
  unfold custom_section, read_WasmString. intros H.
  destruct (read_ULEB128 (BytesIO u)) as [[size s1]|e] eqn:H1;
    cbn [mbind result_bind] in H; [|done].
  destruct (read_ULEB128_inv _ _ _ H1) as [Hb1 Hp1]. cbn [buf pos BytesIO] in *.
  destruct (read size s1) as [nb s2] eqn:H2. cbn [mbind result_bind mret result_ret] in H.
  destruct (read_front _ _ _ _ H2) as (Hr2 & Hb2 & Hp2).
  destruct (read (Z.of_nat (length u) - tell s2) s2) as [data s3] eqn:H3.
  injection H as <-. cbn [WasmSection.data WasmSection._data WasmSection.name
                          WasmSection.__init__].
  assert (Hlen2 : length (remaining s1) = (length nb + length (remaining s2))%nat)
    by (rewrite Hr2 at 1; apply length_app).
  assert (Hl1 : length (remaining s1) = (length u - pos s1)%nat)
    by (unfold remaining; rewrite length_drop, Hb1; reflexivity).
  assert (Hdata : data = remaining s2).
  { unfold read in H3. injection H3 as <- _.
    rewrite decide_False by (unfold tell; lia).
    apply take_ge. unfold tell. lia. }
  exists (take (pos s1) u), nb. split; [|split; [|reflexivity]].
  - rewrite Hdata, <- Hr2. unfold remaining. rewrite Hb1. symmetry. apply take_drop.
  - intros Hnil. apply (f_equal length) in Hnil. rewrite length_take in Hnil.
    simpl in Hnil. lia.
Qed.

(** X8: a user section that parses is cut into three consecutive slices of
    its payload: a non-empty lead (the varint length of the name), the bytes
    [str] turns into the section's name, and the section's data; no byte of
    the payload is dropped, repeated or invented. *)
Theorem custom_section_slices (py : PyVersion) (u : bytes) (section : WasmSection.t) :
  custom_section py u = Ok section →
  ∃ lead name_bytes,
    u = lead ++ name_bytes ++ WasmSection.data section
    ∧ lead ≠ []
    ∧ WasmSection.name section = py_str py name_bytes.
Proof. exact (custom_section_slices_of py u section). Qed.

Lemma custom_section_slices_witness :
  custom_section Py2 (user_payload (literal "dup") (literal "first"))
  = Ok (WasmSection.__init__ "dup" (literal "first"))
  ∧ ∃ lead name_bytes,
      user_payload (literal "dup") (literal "first")
      = lead ++ name_bytes ++ literal "first"
      ∧ lead ≠ [] ∧ "dup" = py_str Py2 name_bytes.
Proof.
  assert (H : custom_section Py2 (user_payload (literal "dup") (literal "first"))
              = Ok (WasmSection.__init__ "dup" (literal "first"))) by reflexivity.
  split; [exact H|]. exact (custom_section_slices Py2 _ _ H).
Defined.



(** ** The custom section map *)

(** Every entry of the map was there before or was read from a payload. *)
Lemma _read_custom_sections_lookup_inv (py : PyVersion) (us : list bytes) :
  ∀ d m key section,
    _read_custom_sections py us d = Ok m →
    m !! key = Some section →
    d !! key = Some section
    ∨ ∃ u, u ∈ us ∧ custom_section py u = Ok section
           ∧ WasmSection.name section = key.
Proof.
  induction us as [|u us IH]; intros d m key section Hrun Hlook.
  - injection Hrun as <-. left. exact Hlook.
  - cbn [_read_custom_sections] in Hrun.
    destruct (custom_section py u) as [su|e] eqn:Hu; [|done].
    cbn [mbind result_bind] in Hrun.
    destruct (IH _ _ _ _ Hrun Hlook) as [Hd|(u' & Hin & Hu' & Hname)].
    + destruct (decide (WasmSection.name su = key)) as [Heq|Hne].
      * rewrite Heq, lookup_insert_eq in Hd. injection Hd as <-.
        right. exists u. split; [left|done].
      * rewrite lookup_insert_ne in Hd by done. left. exact Hd.
    + right. exists u'. split; [right; exact Hin|done].
Qed.

(** The map and the payloads [__init__] built it from. *)
Lemma __init___custom_map (py : PyVersion) (s : Stream) (self : WasmFile) :
  __init__ py s = Ok self →
  ∃ us, _section_name_map self !! WasmSection.User = Some us
        ∧ _read_custom_sections py us ∅ = Ok (_custom_section_name_map self).
Proof.
  unfold __init__, _read_sections. intros Hinit.
  destruct (_identify_file s) as [[v s8]|e]; [|done].
  cbn [mbind result_bind] in Hinit.
  destruct (_read_sections_loop (length (remaining s8)) (st_size s8) ∅ s8)
    as [[m s']|e]; [|done].
  cbn [mbind result_bind] in Hinit.
  destruct (m !! WasmSection.User) as [us|] eqn:Hus; [|done].
  cbn [mbind result_bind] in Hinit.
  destruct (_read_custom_sections py us ∅) as [c|e] eqn:Hc; [|done].
  injection Hinit as <-. exists us. done.
Qed.

(** X10: when the user sections of the raw input carry names that [str]
    keeps distinct, every one of them is retrievable by its name after
    construction, with exactly its data, and nothing else is: each entry
    [get_section_by_name] returns is one of those sections. *)
Theorem get_section_by_name_distinct_names (py : PyVersion)
    (chunks : list (Z * bytes)) (self : WasmFile) (sections : list (bytes * bytes)) :
  Forall (fun c => 0 <= fst c) chunks →
  __init__ py (open_file (module_bytes chunks)) = Ok self →
  payloads_of WasmSection.User chunks = map user_payload_of sections →
  NoDup (map (fun section => py_str py (fst section)) sections) →
  (∀ name data, (name, data) ∈ sections →
     get_section_by_name self (py_str py name)
     = Some (WasmSection.__init__ (py_str py name) data))
  ∧ (∀ key section, get_section_by_name self key = Some section →
       ∃ name data, (name, data) ∈ sections ∧ key = py_str py name
                    ∧ section = WasmSection.__init__ key data).
Proof.
  intros Hcodes Hinit Hus Hnodup.
  destruct (__init___custom_map _ _ _ Hinit) as (us & Hmap & Hrun).
  assert (Hus' : us = map user_payload_of sections).
  { rewrite (init_section_name_map_lemma py chunks self WasmSection.User Hcodes Hinit)
      in Hmap.
    rewrite Hus in Hmap. destruct (map user_payload_of sections); [done|].
    injection Hmap as <-. reflexivity. }
  subst us. unfold get_section_by_name. split.
  - intros name data Hin.
    apply list_elem_of_split in Hin as (l1 & l2 & ->).
    rewrite map_app in Hrun. cbn [map] in Hrun.
    rewrite map_app in Hnodup. cbn [map fst] in Hnodup.
    apply NoDup_app in Hnodup as (_ & _ & Hnodup).
    apply NoDup_cons in Hnodup as [Hnotin _].
    apply (_read_custom_sections_last py (user_payload_of (name, data))
             (WasmSection.__init__ (py_str py name) data) _ _ _ _ Hrun).
    + apply custom_section_user_payload.
    + intros u' section' Hin' Hu'.
      apply list_elem_of_In, in_map_iff in Hin' as ([n' d'] & <- & Hin').
      unfold user_payload_of in Hu'. cbn [fst snd] in Hu'.
      rewrite custom_section_user_payload in Hu'. injection Hu' as <-.
      cbn [WasmSection.name WasmSection.__init__]. intros Heq.
      apply Hnotin. apply list_elem_of_In, in_map_iff.
      exists (n', d'). split; [exact Heq|exact Hin'].
  - intros key section Hlook.
    destruct (_read_custom_sections_lookup_inv _ _ _ _ _ _ Hrun Hlook)
      as [Hempty|(u & Hin & Hu & Hname)].
    + rewrite lookup_empty in Hempty. done.
    + apply list_elem_of_In, in_map_iff in Hin as ([n d] & <- & Hin).
      unfold user_payload_of in Hu. cbn [fst snd] in Hu.
      rewrite custom_section_user_payload in Hu. injection Hu as <-.
      cbn [WasmSection.name WasmSection.__init__] in Hname. subst key.
      exists n, d. split; [apply list_elem_of_In; exact Hin|done].
Qed.

Lemma get_section_by_name_distinct_names_witness :
  __init__ Py2 (open_file compressed_module) = Ok compressed_file
  ∧ NoDup (map (fun section : bytes * bytes => py_str Py2 (fst section))
             [(literal ".zdebug_info", ZLIB_hi); (literal ".eh_frame", literal "frames")])
  ∧ get_section_by_name compressed_file ".eh_frame"
    = Some (WasmSection.__init__ ".eh_frame" (literal "frames")).
Proof.
  assert (Hc : Forall (fun c : Z * bytes => 0 <= fst c)
            [(WasmSection.User, user_payload (literal ".zdebug_info") ZLIB_hi);
             (WasmSection.Code, literal "code");
             (WasmSection.User, user_payload (literal ".eh_frame") (literal "frames"))])
    by (repeat constructor; vm_compute; discriminate).
  assert (H : __init__ Py2 (open_file compressed_module) = Ok compressed_file)
    by (vm_compute; reflexivity).
  assert (Hn : NoDup (map (fun section : bytes * bytes => py_str Py2 (fst section))
                 [(literal ".zdebug_info", ZLIB_hi);
                  (literal ".eh_frame", literal "frames")])).
  { apply NoDup_cons_2.
    - apply not_elem_of_cons. split; [discriminate|apply not_elem_of_nil].
    - apply NoDup_cons_2; [apply not_elem_of_nil|apply NoDup_nil_2]. }
  split; [exact H|]. split; [exact Hn|].
  apply (proj1 (get_section_by_name_distinct_names Py2 _ compressed_file
                  [(literal ".zdebug_info", ZLIB_hi);
                   (literal ".eh_frame", literal "frames")]
                  Hc H eq_refl Hn) (literal ".eh_frame") (literal "frames")).
  right. left.
Defined.

(** X11: every section [get_section_by_name] returns on a constructed object
    was read from one of the user payloads of the file: the key is the
    section's own name, that name is [str] of a slice of the payload, and the
    section's data is the slice that follows it to the end of the payload. *)
Theorem get_section_by_name_from_payload (py : PyVersion) (s : Stream)
    (self : WasmFile) (key : string) (section : WasmSection.t) :
  __init__ py s = Ok self →
  get_section_by_name self key = Some section →
  WasmSection.name section = key
  ∧ ∃ us u lead name_bytes,
      _section_name_map self !! WasmSection.User = Some us
      ∧ u ∈ us
      ∧ u = lead ++ name_bytes ++ WasmSection.data section
      ∧ key = py_str py name_bytes.
Proof.
  intros Hinit Hlook.
  destruct (__init___custom_map _ _ _ Hinit) as (us & Hmap & Hrun).
  destruct (_read_custom_sections_lookup_inv _ _ _ _ _ _ Hrun Hlook)
    as [Hempty|(u & Hin & Hu & Hname)].
  - rewrite lookup_empty in Hempty. done.
  - split; [exact Hname|].
    destruct (custom_section_slices_of _ _ _ Hu) as (lead & nb & Hsplit & _ & Hstr).
    exists us, u, lead, nb. rewrite <- Hname. done.
Qed.

Lemma get_section_by_name_from_payload_witness :
  __init__ Py2 (open_file duplicate_module) = Ok duplicate_file
  ∧ get_section_by_name duplicate_file "dup"
    = Some (WasmSection.__init__ "dup" (literal "second"))
  ∧ ∃ us u lead name_bytes,
      _section_name_map duplicate_file !! WasmSection.User = Some us
      ∧ u ∈ us
      ∧ u = lead ++ name_bytes ++ literal "second"
      ∧ "dup" = py_str Py2 name_bytes.
Proof.
  assert (H : __init__ Py2 (open_file duplicate_module) = Ok duplicate_file)
    by (vm_compute; reflexivity).
  assert (Hl : get_section_by_name duplicate_file "dup"
               = Some (WasmSection.__init__ "dup" (literal "second")))
    by reflexivity.
  split; [exact H|]. split; [exact Hl|].
  exact (proj2 (get_section_by_name_from_payload Py2 _ duplicate_file "dup" _ H Hl)).
Defined.

Lemma py_str_Py3_head (name_bytes : bytes) :
  ∃ rest, py_str Py3 name_bytes = String "b" rest.
Proof. unfold py_str, bytes_repr. cbn [app String.string_of_list_ascii]. by eexists. Qed.

(** X12: on Python 3 every key of the custom section map starts with the
    letter b (it is the [repr] of a byte string), so on every file that
    [__init__] accepts, [has_dwarf_info] returns [None] and [get_dwarf_info],
    with or without relocation, returns a bundle whose slots are all [None]:
    no debug section is ever found. *)
Theorem py3_finds_no_debug_section `{Platform, Zlib, RelocationHandler}
    (s : Stream) (self : WasmFile) :
  __init__ Py3 s = Ok self →
  (∀ key, is_Some (get_section_by_name self key) → ∃ rest, key = String "b" rest)
  ∧ has_dwarf_info self = None
  ∧ ∀ relocate,
      get_dwarf_info self relocate
      = Ok (bundle None None None None None None None None None None None).
Proof.
  intros Hinit.
  assert (Hkeys : ∀ key, is_Some (get_section_by_name self key) →
                         ∃ rest, key = String "b" rest).
  { intros key [section Hlook].
    destruct (__init___custom_map _ _ _ Hinit) as (us & Hmap & Hrun).
    destruct (_read_custom_sections_lookup_inv _ _ _ _ _ _ Hrun Hlook)
      as [Hempty|(u & Hin & Hu & Hname)].
    - rewrite lookup_empty in Hempty. done.
    - destruct (custom_section_slices_of _ _ _ Hu) as (lead & nb & _ & _ & Hstr).
      destruct (py_str_Py3_head nb) as [rest Hrest].
      exists rest. rewrite <- Hname, Hstr. exact Hrest. }
  assert (Hnone : ∀ rest, get_section_by_name self (String "." rest) = None).
  { intros rest.
    destruct (get_section_by_name self (String "." rest)) as [section|] eqn:Hl;
      [|reflexivity].
    destruct (Hkeys (String "." rest)) as [rest' Heq]; [by eexists|]. done. }
  split; [exact Hkeys|]. split.
  - unfold has_dwarf_info. rewrite !Hnone. reflexivity.
  - intros relocate. rewrite get_dwarf_info_uncompressed by apply Hnone.
    unfold plain_dwarf_info, plain_slot. rewrite !Hnone. reflexivity.
Qed.

Lemma py3_finds_no_debug_section_witness :
  __init__ Py3 (open_file (debug_info_module [])) = Ok minimal_file
  ∧ has_dwarf_info minimal_file = None.
Proof.
  assert (H : __init__ Py3 (open_file (debug_info_module [])) = Ok minimal_file)
    by (vm_compute; reflexivity).
  split; [exact H|].
  exact (proj1 (proj2 (@py3_finds_no_debug_section page_4096 stored_zlib
                         no_relocations _ minimal_file H))).
Defined.

(** ** The debug bundle of a constructed object *)

Lemma plain_slot_descriptor `{RelocationHandler} (self : WasmFile) (name : string) :
  built_by_init (_custom_section_name_map self) →
  plain_slot self false name = Ok (descriptor_slot self name).
Proof.
  intros Hbuilt. unfold plain_slot, descriptor_slot, get_section_by_name.
  destruct (_custom_section_name_map self !! name) as [section|] eqn:Hlook;
    [|reflexivity].
  destruct (Hbuilt _ _ Hlook) as [data ->].
  rewrite _read_dwarf_section_init. reflexivity.
Qed.

(** X13: on a constructed object with no [.zdebug_info] section,
    [get_dwarf_info] without relocation always returns, and each slot of the
    bundle is [None] when the section of that canonical name is absent, and
    otherwise a descriptor with the section's name, exactly its data as
    stream, its length as size, and global offset and address 0. *)
Theorem get_dwarf_info_plain_bundle `{Platform, Zlib, RelocationHandler}
    (py : PyVersion) (s : Stream) (self : WasmFile) :
  __init__ py s = Ok self →
  get_section_by_name self ".zdebug_info" = None →
  get_dwarf_info self false
  = Ok (bundle (descriptor_slot self ".debug_info")
               (descriptor_slot self ".debug_aranges")
               (descriptor_slot self ".debug_abbrev")
               (descriptor_slot self ".debug_str")
               (descriptor_slot self ".debug_line")
               (descriptor_slot self ".debug_frame")
               (descriptor_slot self ".debug_loc")
               (descriptor_slot self ".debug_ranges")
               (descriptor_slot self ".debug_pubtypes")
               (descriptor_slot self ".debug_pubnames")
               (descriptor_slot self ".eh_frame")).
Proof.
  intros Hinit Hz. pose proof (__init___built _ _ _ Hinit) as Hbuilt.
  rewrite get_dwarf_info_uncompressed by exact Hz.
  unfold plain_dwarf_info. rewrite !plain_slot_descriptor by exact Hbuilt.
  reflexivity.
Qed.

Lemma get_dwarf_info_plain_bundle_witness :
  __init__ Py2 (open_file duplicate_module) = Ok duplicate_file
  ∧ get_section_by_name duplicate_file ".zdebug_info" = None
  ∧ @get_dwarf_info page_4096 stored_zlib no_relocations duplicate_file false
    = Ok (bundle None None None None None None None None None None None).
Proof.
  assert (H : __init__ Py2 (open_file duplicate_module) = Ok duplicate_file)
    by (vm_compute; reflexivity).
  assert (Hz : get_section_by_name duplicate_file ".zdebug_info" = None)
    by reflexivity.
  split; [exact H|]. split; [exact Hz|].
  exact (@get_dwarf_info_plain_bundle page_4096 stored_zlib no_relocations
           Py2 _ duplicate_file H Hz).
Defined.

(** X14: when the [.zdebug_info] section of a constructed object holds at
    most 12 bytes, [get_dwarf_info] without relocation raises the
    [AssertionError] of the size check and returns no bundle, whatever the
    other sections are. *)
Theorem get_dwarf_info_short_zdebug_info `{Platform, Zlib, RelocationHandler}
    (self : WasmFile) (section : WasmSection.t) :
  built_by_init (_custom_section_name_map self) →
  get_section_by_name self ".zdebug_info" = Some section →
  (length (WasmSection.data section) ≤ 12)%nat →
  get_dwarf_info self false = Raise (AssertionError Unsupported_compression_format).
Proof.
  intros Hbuilt Hz Hlen.
  rewrite get_dwarf_info_compressed by (by eexists).
  assert (Hslot : decompressed_slot self false ".zdebug_info"
                  = Raise (AssertionError Unsupported_compression_format)).
  { unfold decompressed_slot. rewrite Hz.
    destruct (Hbuilt _ _ Hz) as [data ->].
    rewrite _read_dwarf_section_init. run.
    unfold _decompress_dwarf_section.
    rewrite decide_False; [reflexivity|].
    cbn [descriptor_of DebugSectionDescriptor.size].
    cbn [WasmSection.data WasmSection._data WasmSection.__init__] in Hlen. lia. }
  unfold compressed_dwarf_info. rewrite Hslot. reflexivity.
Qed.

Lemma built_by_init_short_zdebug_file :
  built_by_init (_custom_section_name_map short_zdebug_file).
Proof.
  intros name section. cbn [_custom_section_name_map short_zdebug_file].
  intros Hlook.
  destruct (decide (name = ".zdebug_info")) as [->|Hne1].
  - rewrite lookup_insert_eq in Hlook. injection Hlook as <-. by eexists.
  - rewrite lookup_insert_ne in Hlook by done.
    destruct (decide (name = ".eh_frame")) as [->|Hne2].
    + rewrite lookup_insert_eq in Hlook. injection Hlook as <-. by eexists.
    + rewrite lookup_insert_ne, lookup_empty in Hlook by done. done.
Defined.

Lemma get_dwarf_info_short_zdebug_info_witness :
  get_section_by_name short_zdebug_file ".zdebug_info"
  = Some (WasmSection.__init__ ".zdebug_info" (literal "ZLIB"))
  ∧ (length (WasmSection.data (WasmSection.__init__ ".zdebug_info" (literal "ZLIB")))
     ≤ 12)%nat
  ∧ @get_dwarf_info page_4096 stored_zlib no_relocations short_zdebug_file false
    = Raise (AssertionError Unsupported_compression_format).
Proof.
  assert (Hz : get_section_by_name short_zdebug_file ".zdebug_info"
               = Some (WasmSection.__init__ ".zdebug_info" (literal "ZLIB")))
    by reflexivity.
  assert (Hl : (length (WasmSection.data
                          (WasmSection.__init__ ".zdebug_info" (literal "ZLIB")))
                ≤ 12)%nat)
    by (vm_compute; repeat constructor).
  split; [exact Hz|]. split; [exact Hl|].
  exact (@get_dwarf_info_short_zdebug_info page_4096 stored_zlib no_relocations
           short_zdebug_file _ built_by_init_short_zdebug_file Hz Hl).
Defined.

Lemma decompressed_slot_raises `{Platform, Zlib, RelocationHandler}
    (self : WasmFile) (name : string) (e : exn) :
  zlib_streaming →
  built_by_init (_custom_section_name_map self) →
  decompressed_slot self false name = Raise e →
  (∃ a, e = AssertionError a) ∨ (∃ z, zlib_inflate z = Raise e).
Proof.
  intros Hstreaming Hbuilt. unfold decompressed_slot, get_section_by_name.
  destruct (_custom_section_name_map self !! name) as [section|] eqn:Hlook;
    [|done].
  destruct (Hbuilt _ _ Hlook) as [data ->].
  rewrite _read_dwarf_section_init. run.
  rewrite _decompress_dwarf_section_eq by exact Hstreaming. cbv zeta.
  cbn [descriptor_of DebugSectionDescriptor.size DebugSectionDescriptor.stream buf].
  destruct (decide (Z.of_nat (length data) > 12)) as [Hsize|]; run.
  2:{ intros [= <-]. left. by eexists. }
  destruct (decide (take 4 data = ZLIB)); run.
  2:{ intros [= <-]. left. by eexists. }
  unfold struct_unpack_Q_big.
  rewrite decide_True by (rewrite length_take, length_drop; lia). run.
  destruct (zlib_inflate (drop 12 data)) as [out|e'] eqn:Hz; run.
  2:{ intros [= <-]. right. by eexists. }
  destruct (decide _); run; [done|].
  intros [= <-]. left. by eexists.
Qed.

(** X15: on a constructed object, the only exceptions [get_dwarf_info]
    without relocation raises are the [AssertionError]s of
    [_decompress_dwarf_section] and whatever the zlib decompression object
    raises on the bytes it is given; in particular [struct.unpack] never
    fails there, because a section longer than 12 bytes always holds the
    eight size bytes. *)
Theorem get_dwarf_info_raises_only `{Platform, Zlib, RelocationHandler}
    (py : PyVersion) (s : Stream) (self : WasmFile) (e : exn) :
  zlib_streaming →
  __init__ py s = Ok self →
  get_dwarf_info self false = Raise e →
  (∃ a, e = AssertionError a) ∨ (∃ z, zlib_inflate z = Raise e).
Proof.
  intros Hstreaming Hinit. pose proof (__init___built _ _ _ Hinit) as Hbuilt.
  destruct (get_section_by_name self ".zdebug_info") as [section|] eqn:Hz.
  2:{ rewrite get_dwarf_info_uncompressed by exact Hz.
      destruct (plain_dwarf_info_built self Hbuilt) as [info ->]. done. }
  rewrite get_dwarf_info_compressed by (by eexists).
  unfold compressed_dwarf_info.
  repeat match goal with
         | |- context [decompressed_slot self false ?n] =>
             let Hs := fresh "Hs" in
             destruct (decompressed_slot self false n) eqn:Hs; run;
             [|intros [= <-];
               exact (decompressed_slot_raises self n _ Hstreaming Hbuilt Hs)]
         end.
  destruct (plain_slot_built self ".eh_frame" Hbuilt) as [slot ->]. done.
Qed.

Lemma get_dwarf_info_raises_only_witness :
  __init__ Py2 (open_file short_zdebug_module) = Ok short_zdebug_file
  ∧ @get_dwarf_info page_4096 stored_zlib no_relocations short_zdebug_file false
    = Raise (AssertionError Unsupported_compression_format)
  ∧ ((∃ a, AssertionError Unsupported_compression_format = AssertionError a)
     ∨ (∃ z, @zlib_inflate stored_zlib z
             = Raise (AssertionError Unsupported_compression_format))).
Proof.
  assert (H : __init__ Py2 (open_file short_zdebug_module) = Ok short_zdebug_file)
    by (vm_compute; reflexivity).
  assert (Hr : @get_dwarf_info page_4096 stored_zlib no_relocations
                 short_zdebug_file false
               = Raise (AssertionError Unsupported_compression_format))
    by (vm_compute; reflexivity).
  split; [exact H|]. split; [exact Hr|].
  exact (@get_dwarf_info_raises_only page_4096 stored_zlib no_relocations
           Py2 _ short_zdebug_file _ stored_zlib_streaming H Hr).
Defined.

(** X16: the page size is invisible: for a zlib decompression object that
    behaves as a stream transducer, [_decompress_dwarf_section] returns the
    same result, descriptor or exception, on two platforms whose page sizes
    differ. *)
Theorem decompress_dwarf_section_any_page_size (P1 P2 : Platform) `{Zlib}
    (section : DebugSectionDescriptor.t) :
  zlib_streaming →
  @_decompress_dwarf_section P1 _ section = @_decompress_dwarf_section P2 _ section.
Proof.
  intros Hstreaming.
  rewrite (@_decompress_dwarf_section_eq P1 _ Hstreaming section).
  rewrite (@_decompress_dwarf_section_eq P2 _ Hstreaming section).
  reflexivity.
Qed.

Lemma decompress_dwarf_section_any_page_size_witness :
  @_decompress_dwarf_section page_1 stored_zlib hi_section
  = @_decompress_dwarf_section page_4096 stored_zlib hi_section.
Proof.
  exact (@decompress_dwarf_section_any_page_size page_1 page_4096 stored_zlib
           hi_section stored_zlib_streaming).
Defined.

(** ** Segments and sections by index *)

(** X17: every offset [address_offsets] yields lies in the file range of a
    load segment that [iter_segments] yields: with it, the whole region
    [offset, offset + size) is inside [p_offset, p_offset + p_filesz). *)
Theorem address_offsets_in_file_range (self : WasmFile) (start size offset : Z) :
  offset ∈ yields (address_offsets self start size) →
  ∃ seg, seg ∈ yields (iter_segments self)
         ∧ p_type (segment_header seg) = "PT_LOAD"
         ∧ p_offset (segment_header seg) <= offset
         ∧ offset + size
           <= p_offset (segment_header seg) + p_filesz (segment_header seg).
Proof.
  unfold address_offsets. cbn [yields]. rewrite address_offsets_body_covers.
  intros Hin.
  apply list_elem_of_In, in_map_iff in Hin as (seg & <- & Hseg).
  apply list_elem_of_In, list_elem_of_filter in Hseg as [(Hload & Hlo & Hhi) Hseg].
  exists seg. unfold offset_in. repeat split; [exact Hseg|exact Hload|lia|lia].
Qed.

Lemma address_offsets_in_file_range_witness :
  656 ∈ yields (address_offsets segmented_file 4240 4)
  ∧ ∃ seg, seg ∈ yields (iter_segments segmented_file)
           ∧ p_type (segment_header seg) = "PT_LOAD"
           ∧ p_offset (segment_header seg) <= 656
           ∧ 656 + 4 <= p_offset (segment_header seg) + p_filesz (segment_header seg).
Proof.
  assert (H : 656 ∈ yields (address_offsets segmented_file 4240 4)) by left.
  split; [exact H|].
  exact (address_offsets_in_file_range segmented_file 4240 4 656 H).
Defined.

Lemma yield_each_lookup {A} (f : Z → result A) (l : list Z) :
  ∀ k a, yields (yield_each f l) !! k = Some a →
         ∃ i, l !! k = Some i ∧ f i = Ok a.
Proof.
  induction l as [|i l IH]; intros k a Hk; cbn [yield_each] in Hk.
  - cbn [yields] in Hk. done.
  - destruct (f i) as [b|e] eqn:Hf; cbn [yields] in Hk; [|done].
    destruct k as [|k].
    + injection Hk as <-. exists i. done.
    + exact (IH k a Hk).
Qed.

Lemma yield_each_complete {A} (f : Z → result A) (l : list Z) :
  raised (yield_each f l) = None → length (yields (yield_each f l)) = length l.
Proof.
  induction l as [|i l IH]; cbn [yield_each]; [reflexivity|].
  destruct (f i) as [b|e]; cbn [yields raised]; [|done].
  intros Hr. cbn [length]. rewrite IH by exact Hr. reflexivity.
Qed.

Lemma range_lookup (n : Z) (k : nat) (i : Z) :
  range n !! k = Some i → i = Z.of_nat k ∧ Z.of_nat k < n.
Proof.
  unfold range. intros Hk.
  apply list_lookup_fmap_Some in Hk as (j & -> & Hj).
  apply lookup_seq in Hj as [-> Hlt]. split; [reflexivity|lia].
Qed.

Lemma segment_header__make_segment (h : Elf_Phdr_t) :
  segment_header (_make_segment h) = h.
Proof.
  unfold _make_segment. repeat (destruct (decide _)); reflexivity.
Qed.

(** X18: on an object whose [header] and [structs] are assigned,
    [iter_segments] yields the segments of the table in index order: the k-th
    one wraps, unchanged, the header parsed at [e_phoff + k * e_phentsize],
    k is below [e_phnum], and a run that ends without an exception yields
    [e_phnum] of them (none when [e_phnum] is not positive). *)
Theorem iter_segments_table (self : WasmFile) (h : gmap string Z) (st : ELFStructs)
    (e_phnum e_phoff e_phentsize : Z) :
  header self = Some h →
  structs self = Some st →
  h !! "e_phnum" = Some e_phnum →
  h !! "e_phoff" = Some e_phoff →
  h !! "e_phentsize" = Some e_phentsize →
  (∀ k seg, yields (iter_segments self) !! k = Some seg →
            Z.of_nat k < e_phnum
            ∧ Elf_Phdr st (buf (stream self)) (e_phoff + Z.of_nat k * e_phentsize)
              = Ok (segment_header seg))
  ∧ (raised (iter_segments self) = None →
     length (yields (iter_segments self)) = Z.to_nat e_phnum).
Proof.
  intros Hh Hst Hn Hoff Hsz.
  assert (Hiter : iter_segments self = yield_each (get_segment self) (range e_phnum)).
  { unfold iter_segments, num_segments, __getitem__. rewrite Hh, Hn. reflexivity. }
  rewrite Hiter. split.
  - intros k seg Hk.
    apply yield_each_lookup in Hk as (i & Hi & Hget).
    apply range_lookup in Hi as [-> Hlt]. split; [exact Hlt|].
    unfold get_segment, _get_segment_header, get_structs, _segment_offset,
      __getitem__, struct_parse in Hget.
    rewrite Hst, Hh, Hoff, Hsz in Hget. cbn [mbind result_bind mret result_ret] in Hget.
    destruct (Elf_Phdr st (buf (stream self)) (e_phoff + Z.of_nat k * e_phentsize))
      as [ph|e]; [|done].
    cbn [mbind result_bind mret result_ret] in Hget. injection Hget as <-.
    rewrite segment_header__make_segment. reflexivity.
  - intros Hr. rewrite yield_each_complete by exact Hr.
    unfold range. rewrite length_map, length_seq. reflexivity.
Qed.

Lemma iter_segments_table_witness :
  raised (iter_segments segmented_file) = None
  ∧ length (yields (iter_segments segmented_file)) = Z.to_nat 3.
Proof.
  assert (Hr : raised (iter_segments segmented_file) = None) by reflexivity.
  split; [exact Hr|].
  refine (proj2 (iter_segments_table segmented_file _ _ 3 64 32
                   eq_refl eq_refl _ _ _) Hr); reflexivity.
Defined.



(** X20: on every object [__init__] returns, the private helpers of the
    segmented family raise [AttributeError] as well: [_section_offset] and
    [_segment_offset] and [_get_file_stringtable] for the missing [header],
    [_get_section_header], [_get_segment_header] and [_parse_elf_header] for
    the missing [structs], [_get_section_name] for the missing
    [_file_stringtable_section]. *)
Theorem private_helpers_raise (py : PyVersion) (s : Stream) (self : WasmFile) :
  __init__ py s = Ok self →
  (∀ n, _section_offset self n = Raise (AttributeError "header"))
  ∧ (∀ n, _segment_offset self n = Raise (AttributeError "header"))
  ∧ _get_file_stringtable self = Raise (AttributeError "header")
  ∧ (∀ n, _get_section_header self n = Raise (AttributeError "structs"))
  ∧ (∀ n, _get_segment_header self n = Raise (AttributeError "structs"))
  ∧ _parse_elf_header self = Raise (AttributeError "structs")
  ∧ (∀ section_header,
       _get_section_name self section_header
       = Raise (AttributeError "_file_stringtable_section")).
Proof.
  intros Hinit.
  destruct (__init___attributes py s self Hinit) as (Hh & Hs & Hf).
  unfold _section_offset, _segment_offset, _get_file_stringtable,
    _get_section_header, _get_segment_header, _parse_elf_header,
    _get_section_name, get_structs, __getitem__.
  rewrite Hh, Hs, Hf. repeat split.
Qed.

Lemma private_helpers_raise_witness :
  __init__ Py3 (open_file (debug_info_module [])) = Ok minimal_file
  ∧ _parse_elf_header minimal_file = Raise (AttributeError "structs")
  ∧ _get_file_stringtable minimal_file = Raise (AttributeError "header").
Proof.
  assert (H : __init__ Py3 (open_file (debug_info_module [])) = Ok minimal_file)
    by (vm_compute; reflexivity).
  split; [exact H|].
  pose proof (private_helpers_raise Py3 _ minimal_file H)
    as (_ & _ & H3 & _ & _ & H6 & _).
  split; [exact H6|exact H3].
Defined.

(** ** Section objects *)

(** X21: the header of a section object has exactly three keys: [sh_size]
    is the number of bytes [data()] returns, [sh_offset] and [sh_addr] are 0,
    and any other key raises [KeyError]. *)
Theorem WasmSection_header_keys (name : string) (data : bytes) (key : string) :
  WasmSection.__getitem__ (WasmSection.__init__ name data) key
  = if decide (key = "sh_size")
    then Ok (Z.of_nat (length (WasmSection.data (WasmSection.__init__ name data))))
    else if decide (key = "sh_offset") then Ok 0
    else if decide (key = "sh_addr") then Ok 0
    else Raise KeyError.
Proof.
  unfold WasmSection.__getitem__, WasmSection.__init__, WasmSection.data.
  cbn [WasmSection.header WasmSection._data].
  repeat (destruct (decide _) as [->|?]); simplify_map_eq; reflexivity.
Qed.

(** ** Sections the bundle does not read *)

Lemma _read_dwarf_section_no_relocation `{RelocationHandler}
    (self1 self2 : WasmFile) (section : WasmSection.t) :
  _read_dwarf_section self1 section false = _read_dwarf_section self2 section false.
Proof. reflexivity. Qed.

(** X22: when the compressed naming convention applies, the bundle depends
    only on the sections named with the [.z] prefix and on [.eh_frame]: two
    objects that agree on those eleven names get the same result from
    [get_dwarf_info] without relocation, so a section under a canonical
    [.debug_*] name is never read. *)
Theorem get_dwarf_info_reads_compressed_names `{Platform, Zlib, RelocationHandler}
    (self1 self2 : WasmFile) :
  is_Some (get_section_by_name self1 ".zdebug_info") →
  (∀ name, name ∈ compressed_names →
           get_section_by_name self1 name = get_section_by_name self2 name) →
  get_dwarf_info self1 false = get_dwarf_info self2 false.
Proof.
  intros Hz Hagree.
  assert (Hz2 : is_Some (get_section_by_name self2 ".zdebug_info"))
    by (rewrite <- Hagree; [exact Hz|left]).
  rewrite !get_dwarf_info_compressed by assumption.
  assert (Hd : ∀ name, name ∈ compressed_names →
                       decompressed_slot self1 false name
                       = decompressed_slot self2 false name).
  { intros name Hin. unfold decompressed_slot. rewrite (Hagree name Hin).
    destruct (get_section_by_name self2 name); reflexivity. }
  assert (Hp : plain_slot self1 false ".eh_frame" = plain_slot self2 false ".eh_frame").
  { unfold plain_slot. rewrite (Hagree ".eh_frame") by (unfold compressed_names; set_solver).
    destruct (get_section_by_name self2 ".eh_frame"); reflexivity. }
  unfold compressed_dwarf_info.
  rewrite !Hd by (unfold compressed_names; set_solver).
  rewrite Hp. reflexivity.
Qed.

Lemma compressed_names_agree :
  ∀ name, name ∈ compressed_names →
          get_section_by_name compressed_file name
          = get_section_by_name compressed_file_with_plain name.
Proof.
  intros name Hin. unfold get_section_by_name.
  cbn [_custom_section_name_map compressed_file_with_plain].
  rewrite lookup_insert_ne; [reflexivity|].
  intros <-. unfold compressed_names in Hin.
  repeat (apply elem_of_cons in Hin as [Hin|Hin]; [discriminate Hin|]).
  apply not_elem_of_nil in Hin. exact Hin.
Defined.

Lemma get_dwarf_info_reads_compressed_names_witness :
  is_Some (get_section_by_name compressed_file ".zdebug_info")
  ∧ get_section_by_name compressed_file_with_plain ".debug_abbrev"
    = Some (WasmSection.__init__ ".debug_abbrev" (literal "abbrevs"))
  ∧ @get_dwarf_info page_4096 stored_zlib no_relocations compressed_file false
    = @get_dwarf_info page_4096 stored_zlib no_relocations
        compressed_file_with_plain false.
Proof.
  assert (Hz : is_Some (get_section_by_name compressed_file ".zdebug_info"))
    by (eexists; reflexivity).
  split; [exact Hz|]. split; [reflexivity|].
  exact (@get_dwarf_info_reads_compressed_names page_4096 stored_zlib no_relocations
           compressed_file compressed_file_with_plain Hz compressed_names_agree).
Defined.

(** ** Relocation and metadata *)

(** X23: relocation touches the stream only: when [_read_dwarf_section]
    returns for a section object, with relocation or without, the
    descriptor carries the section's name, its length as size, and global
    offset and address 0, whatever the relocation handler did to the bytes;
    and when the handler finds no relocation section, the stream is the
    section's data as well. *)
Theorem read_dwarf_section_metadata `{RelocationHandler} (self : WasmFile)
    (name : string) (data : bytes) (relocate : bool)
    (descriptor : DebugSectionDescriptor.t) :
  _read_dwarf_section self (WasmSection.__init__ name data) relocate = Ok descriptor →
  DebugSectionDescriptor.name descriptor = name
  ∧ DebugSectionDescriptor.size descriptor = Z.of_nat (length data)
  ∧ DebugSectionDescriptor.global_offset descriptor = 0
  ∧ DebugSectionDescriptor.address descriptor = 0
  ∧ (relocate = false
     ∨ find_relocations_for_section self (WasmSection.__init__ name data) = Ok None →
     descriptor = descriptor_of name data).
Proof.
  unfold _read_dwarf_section.
  destruct (WasmSection_getitem_init name data) as (-> & -> & ->).
  change (WasmSection.data (WasmSection.__init__ name data)) with data.
  rewrite write_BytesIO.
  destruct relocate.
  - destruct (find_relocations_for_section self (WasmSection.__init__ name data))
      as [[rs|]|e]; run; [|intros [= <-]; repeat split|done].
    destruct (apply_section_relocations _ rs) as [s'|e]; run; [|done].
    intros [= <-]. repeat split. intros [?|?]; done.
  - run. intros [= <-]. repeat split.
Qed.

Lemma read_dwarf_section_metadata_witness :
  @_read_dwarf_section patching_relocations compressed_file
    (WasmSection.__init__ ".eh_frame" (literal "frames")) true
  = Ok {| DebugSectionDescriptor.stream := {| buf := literal "!rames"; pos := 6 |};
          DebugSectionDescriptor.name := ".eh_frame";
          DebugSectionDescriptor.global_offset := 0;
          DebugSectionDescriptor.size := 6;
          DebugSectionDescriptor.address := 0 |}
  ∧ DebugSectionDescriptor.size
      {| DebugSectionDescriptor.stream := {| buf := literal "!rames"; pos := 6 |};
         DebugSectionDescriptor.name := ".eh_frame";
         DebugSectionDescriptor.global_offset := 0;
         DebugSectionDescriptor.size := 6;
         DebugSectionDescriptor.address := 0 |}
    = Z.of_nat (length (literal "frames")).
Proof.
  assert (H : @_read_dwarf_section patching_relocations compressed_file
                (WasmSection.__init__ ".eh_frame" (literal "frames")) true
              = Ok {| DebugSectionDescriptor.stream :=
                        {| buf := literal "!rames"; pos := 6 |};
                      DebugSectionDescriptor.name := ".eh_frame";
                      DebugSectionDescriptor.global_offset := 0;
                      DebugSectionDescriptor.size := 6;
                      DebugSectionDescriptor.address := 0 |})
    by reflexivity.
  split; [exact H|].
  exact (proj1 (proj2 (@read_dwarf_section_metadata patching_relocations
                         compressed_file ".eh_frame" (literal "frames") true _ H))).
Defined.

Lemma get_dwarf_info_compressed_file_value :
  @get_dwarf_info page_4096 stored_zlib no_relocations compressed_file false
  = Ok (bundle (Some (decompressed hi_section (literal "hi")))
               None None None None None None None None None
               (Some (descriptor_of ".eh_frame" (literal "frames")))).
Proof. vm_compute. reflexivity. Defined.

(** X24: whenever [get_dwarf_info] returns, with either naming convention
    and with or without relocation, the bundle declares a little-endian
    target with addresses of 4 bytes and the architecture ['wasm32'], and its
    [.eh_frame] slot is the [.eh_frame] section read as it is, never
    decompressed. *)
Theorem get_dwarf_info_config `{Platform, Zlib, RelocationHandler}
    (self : WasmFile) (relocate : bool) (info : DWARFInfo) :
  get_dwarf_info self relocate = Ok info →
  config info = {| little_endian := true;
                   default_address_size := 4;
                   machine_arch := "wasm32" |}
  ∧ plain_slot self relocate ".eh_frame" = Ok (eh_frame_sec info).
Proof.
  destruct (get_section_by_name self ".zdebug_info") as [section|] eqn:Hz.
  - rewrite get_dwarf_info_compressed by (by eexists).
    unfold compressed_dwarf_info.
    repeat match goal with
           | |- context [decompressed_slot self relocate ?n] =>
               destruct (decompressed_slot self relocate n); run; [|done]
           end.
    destruct (plain_slot self relocate ".eh_frame"); run; [|done].
    intros [= <-]. done.
  - rewrite get_dwarf_info_uncompressed by exact Hz.
    unfold plain_dwarf_info.
    repeat match goal with
           | |- context [plain_slot self relocate ?n ≫= _] =>
               destruct (plain_slot self relocate n); run; [|done]
           end.
    intros [= <-]. done.
Qed.

Lemma get_dwarf_info_config_witness :
  (∃ info, @get_dwarf_info page_4096 stored_zlib no_relocations compressed_file false
           = Ok info
           ∧ machine_arch (config info) = "wasm32"
           ∧ eh_frame_sec info = Some (descriptor_of ".eh_frame" (literal "frames"))).
Proof.
  eexists. split; [exact get_dwarf_info_compressed_file_value|].
  pose proof (@get_dwarf_info_config page_4096 stored_zlib no_relocations
                compressed_file false _ get_dwarf_info_compressed_file_value)
    as [Hc _].
  split; [rewrite Hc; reflexivity|reflexivity].
Defined.
